(** * APILens: the monitoring service ([apis.service.ts]) and the changelog
      schema ([changelog-schema.ts]), embedded as state-passing programs over
      the three document collections the service touches. *)

From Stdlib Require Import ZArith List String Bool Lia DecimalString.
From Stdlib Require Import Permutation Sorted.
Import ListNotations.
Open Scope string_scope.
Open Scope list_scope.
Open Scope Z_scope.

(** ** Values *)

(** A Mongo [ObjectId], written as its hexadecimal string in canonical form
    (24 lower-case digits, what [toString()] gives).  Identifiers the callers
    pass are taken in that form too: on it [new Types.ObjectId(s)] does not
    throw and spells [s]. *)
Definition ObjectId := string.

(** A [Date], as the milliseconds [getTime()] returns. *)
Definition Date := Z.

(** What a rejected promise carries: the fields of the thrown object the
    service reads ([message], [code], [response.status],
    [response.statusText]). *)
Record JsError := {
  name : string;
  message : string;
  code : option string;
  response : option (Z * string)
}.

Definition Error (msg : string) : JsError :=
  {| name := "Error"; message := msg; code := None; response := None |}.

Definition NotFoundException (msg : string) : JsError :=
  {| name := "NotFoundException"; message := msg; code := None;
     response := None |}.

Definition ForbiddenException (msg : string) : JsError :=
  {| name := "ForbiddenException"; message := msg; code := None;
     response := None |}.

(** The four health states the service writes. *)
Inductive HealthStatus := healthy | checking | unhealthy | error.

Definition HealthStatus_eqb (a b : HealthStatus) : bool :=
  match a, b with
  | healthy, healthy | checking, checking
  | unhealthy, unhealthy | error, error => true
  | _, _ => false
  end.

(** Modelled from the spec: the [OpenAPISpec] document type
    ([src/types/api.type] is not among the sources).  The service reads
    [info?.version], [paths] and [components?.schemas]; path items and schemas
    are kept as opaque JSON text. *)
Record SpecInfo := { info_version : option string }.

Record OpenAPISpec := {
  info : option SpecInfo;
  paths : option (list (string * string));
  schemas : option (list (string * string))
}.

(** [spec.info?.version] *)
Definition spec_version (spec : OpenAPISpec) : option string :=
  match info spec with
  | Some i => info_version i
  | None => None
  end.

(** JavaScript truthiness of an optional string: [undefined] and the empty
    string are falsy. *)
Definition truthy (v : option string) : bool :=
  match v with
  | Some s => negb (s =? "")%string
  | None => false
  end.

(** [v || d] on an optional string. *)
Definition or_default (v : option string) (d : string) : string :=
  match v with
  | Some s => if (s =? "")%string then d else s
  | None => d
  end.

(** ** Documents of the three collections *)

Record Api := {
  _id : ObjectId;
  apiName : string;
  openApiUrl : string;
  type : string;
  version : string;
  latestSpec : OpenAPISpec;
  lastChecked : option Date;
  userId : ObjectId;
  checkFrequency : string;
  tags : list string;
  description : option string;
  healthStatus : HealthStatus;
  lastHealthCheck : option Date;
  lastError : option string;
  changeCount : Z;
  isActive : bool
}.

Record SnapshotMetadata := {
  endpointCount : Z;
  schemaCount : Z;
  specSize : Z
}.

Record ApiSnapshot := {
  snap_apiId : ObjectId;
  snap_version : string;
  snap_spec : OpenAPISpec;
  detectedAt : Date;
  metadata : SnapshotMetadata
}.

(** [changelog-schema.ts], class [Changelog]. *)
Record Changelog := {
  apiId : ObjectId;
  previousVersion : string;
  newVersion : string;
  diffSummary : string;
  timestamp : Date
}.

(** The update document of a [findByIdAndUpdate]: the fields it sets. *)
Inductive ApiField :=
| Set_healthStatus (h : HealthStatus)
| Set_lastChecked (d : Date)
| Set_lastHealthCheck (d : Date)
| Set_lastError (e : option string)
| Set_latestSpec (s : OpenAPISpec)
| Set_version (v : string)
| Set_changeCount (n : Z).

Definition set_field (a : Api) (f : ApiField) : Api :=
  match f with
  | Set_healthStatus h =>
      {| _id := _id a; apiName := apiName a; openApiUrl := openApiUrl a;
         type := type a; version := version a; latestSpec := latestSpec a;
         lastChecked := lastChecked a; userId := userId a;
         checkFrequency := checkFrequency a; tags := tags a;
         description := description a; healthStatus := h;
         lastHealthCheck := lastHealthCheck a; lastError := lastError a;
         changeCount := changeCount a; isActive := isActive a |}
  | Set_lastChecked d =>
      {| _id := _id a; apiName := apiName a; openApiUrl := openApiUrl a;
         type := type a; version := version a; latestSpec := latestSpec a;
         lastChecked := Some d; userId := userId a;
         checkFrequency := checkFrequency a; tags := tags a;
         description := description a; healthStatus := healthStatus a;
         lastHealthCheck := lastHealthCheck a; lastError := lastError a;
         changeCount := changeCount a; isActive := isActive a |}
  | Set_lastHealthCheck d =>
      {| _id := _id a; apiName := apiName a; openApiUrl := openApiUrl a;
         type := type a; version := version a; latestSpec := latestSpec a;
         lastChecked := lastChecked a; userId := userId a;
         checkFrequency := checkFrequency a; tags := tags a;
         description := description a; healthStatus := healthStatus a;
         lastHealthCheck := Some d; lastError := lastError a;
         changeCount := changeCount a; isActive := isActive a |}
  | Set_lastError e =>
      {| _id := _id a; apiName := apiName a; openApiUrl := openApiUrl a;
         type := type a; version := version a; latestSpec := latestSpec a;
         lastChecked := lastChecked a; userId := userId a;
         checkFrequency := checkFrequency a; tags := tags a;
         description := description a; healthStatus := healthStatus a;
         lastHealthCheck := lastHealthCheck a; lastError := e;
         changeCount := changeCount a; isActive := isActive a |}
  | Set_latestSpec s =>
      {| _id := _id a; apiName := apiName a; openApiUrl := openApiUrl a;
         type := type a; version := version a; latestSpec := s;
         lastChecked := lastChecked a; userId := userId a;
         checkFrequency := checkFrequency a; tags := tags a;
         description := description a; healthStatus := healthStatus a;
         lastHealthCheck := lastHealthCheck a; lastError := lastError a;
         changeCount := changeCount a; isActive := isActive a |}
  | Set_version v =>
      {| _id := _id a; apiName := apiName a; openApiUrl := openApiUrl a;
         type := type a; version := v; latestSpec := latestSpec a;
         lastChecked := lastChecked a; userId := userId a;
         checkFrequency := checkFrequency a; tags := tags a;
         description := description a; healthStatus := healthStatus a;
         lastHealthCheck := lastHealthCheck a; lastError := lastError a;
         changeCount := changeCount a; isActive := isActive a |}
  | Set_changeCount n =>
      {| _id := _id a; apiName := apiName a; openApiUrl := openApiUrl a;
         type := type a; version := version a; latestSpec := latestSpec a;
         lastChecked := lastChecked a; userId := userId a;
         checkFrequency := checkFrequency a; tags := tags a;
         description := description a; healthStatus := healthStatus a;
         lastHealthCheck := lastHealthCheck a; lastError := lastError a;
         changeCount := n; isActive := isActive a |}
  end.

Definition apply_update (upd : list ApiField) (a : Api) : Api :=
  fold_left set_field upd a.

(** ** The world a service call runs in *)

(** The collections, the outbound GET requests issued so far and the lines
    the logger wrote. *)
Record World := {
  apis : list Api;
  snapshots : list ApiSnapshot;
  changelogs : list Changelog;
  requests : list string;
  logs : list string
}.

(** What one service call gets from outside.  Store operations and
    [new Date()] expressions are named by the line of [apis.service.ts] they
    stand on: [db_fault n = Some e] says the store rejects the operation of
    line [n] with [e].  [fresh_id] is the [_id] a new document receives and
    [minusDays d n] the local-calendar date [setDate(getDate() - n)] leaves
    in [d]. *)
Record Env := {
  newDate : nat -> Date;
  db_fault : nat -> option JsError;
  axios_get : string -> JsError + OpenAPISpec;
  fresh_id : ObjectId;
  minusDays : Date -> Z -> Date
}.

(** An [async] method: it changes the world and either rejects with an error
    or resolves to a value.  What was written before a rejection stays
    written. *)
Definition M (A : Type) : Type := World -> (JsError + A) * World.

Definition ret {A} (a : A) : M A := fun w => (inr a, w).

Definition throw {A} (e : JsError) : M A := fun w => (inl e, w).

Definition bind {A B} (m : M A) (k : A -> M B) : M B :=
  fun w =>
    match m w with
    | (inr a, w') => k a w'
    | (inl e, w') => (inl e, w')
    end.

Definition try_catch {A} (body : M A) (handler : JsError -> M A) : M A :=
  fun w =>
    match body w with
    | (inr a, w') => (inr a, w')
    | (inl e, w') => handler e w'
    end.

Declare Scope async_scope.
Delimit Scope async_scope with async.
Notation "x <- m ;; k" := (bind m (fun x => k))
  (at level 100, m at next level, right associativity) : async_scope.
Notation "m ;; k" := (bind m (fun _ => k))
  (at level 100, right associativity) : async_scope.
Open Scope async_scope.

Definition with_apis (f : list Api -> list Api) (w : World) : World :=
  {| apis := f (apis w); snapshots := snapshots w;
     changelogs := changelogs w; requests := requests w; logs := logs w |}.

Definition with_snapshots (f : list ApiSnapshot -> list ApiSnapshot)
    (w : World) : World :=
  {| apis := apis w; snapshots := f (snapshots w);
     changelogs := changelogs w; requests := requests w; logs := logs w |}.

Definition with_changelogs (f : list Changelog -> list Changelog)
    (w : World) : World :=
  {| apis := apis w; snapshots := snapshots w;
     changelogs := f (changelogs w); requests := requests w; logs := logs w |}.

Definition logger (line : string) : M unit :=
  fun w =>
    (inr tt,
     {| apis := apis w; snapshots := snapshots w; changelogs := changelogs w;
        requests := requests w; logs := logs w ++ [line] |}).

(** ** The document store: the generic operations the service issues *)

Definition findById (id : ObjectId) (l : list Api) : option Api :=
  find (fun a => (_id a =? id)%string) l.

Definition findByIdAndUpdate (id : ObjectId) (upd : list ApiField)
    (l : list Api) : list Api :=
  map (fun a => if (_id a =? id)%string then apply_update upd a else a) l.

Fixpoint findByIdAndDelete (id : ObjectId) (l : list Api) : list Api :=
  match l with
  | [] => []
  | a :: rest =>
      if (_id a =? id)%string then rest else a :: findByIdAndDelete id rest
  end.

Definition deleteMany {A} (matches : A -> bool) (l : list A) : list A :=
  filter (fun d => negb (matches d)) l.

Definition countDocuments {A} (matches : A -> bool) (l : list A) : Z :=
  Z.of_nat (List.length (filter matches l)).

(** [aggregate([{ $match }, { $group: { _id: null, total: { $sum } } }])]:
    no group when nothing matches, one group otherwise. *)
Definition aggregate_sum {A} (matches : A -> bool) (field : A -> Z)
    (l : list A) : list Z :=
  match filter matches l with
  | [] => []
  | d :: ds => [fold_left (fun acc x => acc + field x) (d :: ds) 0]
  end.

(** ** [getCheckIntervalMs]: property lookup on an object literal *)

(** What [intervals[frequency]] can evaluate to: a number, or a member every
    object literal inherits from [Object.prototype] (a function, or for
    [__proto__] the prototype object). *)
Inductive JsValue :=
| JsNumber (n : Z)
| JsInherited (member : string).

Definition intervals : list (string * Z) :=
  [ ("5m", 5 * 60 * 1000);
    ("15m", 15 * 60 * 1000);
    ("1h", 60 * 60 * 1000);
    ("6h", 6 * 60 * 60 * 1000);
    ("1d", 24 * 60 * 60 * 1000) ].

Definition Object_prototype : list string :=
  [ "constructor"; "__defineGetter__"; "__defineSetter__"; "hasOwnProperty";
    "__lookupGetter__"; "__lookupSetter__"; "isPrototypeOf";
    "propertyIsEnumerable"; "toString"; "valueOf"; "__proto__";
    "toLocaleString" ].

Fixpoint own_property (o : list (string * Z)) (key : string) : option Z :=
  match o with
  | [] => None
  | (k, v) :: rest => if (k =? key)%string then Some v else own_property rest key
  end.

(** [o[key]]: own properties first, then the prototype chain; [None] is
    [undefined]. *)
Definition get_property (o : list (string * Z)) (key : string)
    : option JsValue :=
  match own_property o key with
  | Some n => Some (JsNumber n)
  | None =>
      if existsb (String.eqb key) Object_prototype
      then Some (JsInherited key) else None
  end.

(** [a || b]: [undefined] and [0] are falsy, functions and objects truthy. *)
Definition js_or (a b : option JsValue) : option JsValue :=
  match a with
  | None => b
  | Some (JsNumber 0) => b
  | Some v => Some v
  end.

Definition getCheckIntervalMs (frequency : string) : option JsValue :=
  js_or (get_property intervals frequency) (get_property intervals "1h").

(** [n >= v] for a number [n]: a function or object converts to [NaN], and
    so does [undefined]; every comparison with [NaN] is false. *)
Definition js_ge (n : Z) (v : option JsValue) : bool :=
  match v with
  | Some (JsNumber m) => m <=? n
  | Some (JsInherited _) => false
  | None => false
  end.

(** The callback of [apis.filter] in [getApisToCheck]. *)
Definition isDue (now : Date) (api : Api) : bool :=
  match lastChecked api with
  | None => true
  | Some last =>
      let timeSinceLastCheck := now - last in
      let checkInterval := getCheckIntervalMs (checkFrequency api) in
      js_ge timeSinceLastCheck checkInterval
  end.

(** ** The injected change detector and the shapes passed across the API *)

(** Modelled from the spec: [ChangeDetectorService]
    ([change-detector.service.ts] is not among the sources).  Its contract is
    [detectChanges(previousDoc, currentDoc, targetId) -> ChangeSet]: a
    transient, ordered collection of classified changes that is not persisted
    directly.  Being [async], the call may also reject. *)
Module ChangeDetector.

Inductive Kind := added | removed | modified.

Inductive Category :=
| path | operation | parameter | schema | response_ | other.

Record Change := {
  kind : Kind;
  category : Category;
  location : string;
  breaking : bool
}.

Record Result := {
  hasChanges : bool;
  changes : list Change
}.

End ChangeDetector.

Class ChangeDetectorService := {
  detectChanges :
    OpenAPISpec -> OpenAPISpec -> ObjectId -> JsError + ChangeDetector.Result
}.

(** The body of a registration request ([CreateApiDto]). *)
Module CreateApiDto.
Record t := {
  apiName : string;
  openApiUrl : string;
  type : option string;
  checkFrequency : option string;
  tags : option (list string);
  description : option string
}.
End CreateApiDto.

(** What [toResponseDto] copies out of a target ([createdAt] and [updatedAt],
    which the store maintains on its own, are left out). *)
Module ApiResponseDto.
Record t := {
  id : string;
  apiName : string;
  openApiUrl : string;
  type : string;
  version : string;
  checkFrequency : string;
  isActive : bool;
  tags : list string;
  healthStatus : HealthStatus;
  lastChecked : option Date;
  lastHealthCheck : option Date;
  changeCount : Z;
  description : option string
}.
End ApiResponseDto.

(** The value [checkApiForChanges] resolves to. *)
Module CheckResult.
Record t := {
  hasChanges : bool;
  changes : option (list ChangeDetector.Change);
  newVersion : option string
}.
End CheckResult.

Module ApiStatsDto.
Record t := {
  totalApis : Z;
  activeApis : Z;
  healthyApis : Z;
  unhealthyApis : Z;
  recentChanges : Z;
  totalChanges : Z
}.
End ApiStatsDto.

Definition toResponseDto (api : Api) : ApiResponseDto.t :=
  {| ApiResponseDto.id := _id api;
     ApiResponseDto.apiName := apiName api;
     ApiResponseDto.openApiUrl := openApiUrl api;
     ApiResponseDto.type := type api;
     ApiResponseDto.version := version api;
     ApiResponseDto.checkFrequency := checkFrequency api;
     ApiResponseDto.isActive := isActive api;
     ApiResponseDto.tags := tags api;
     ApiResponseDto.healthStatus := healthStatus api;
     ApiResponseDto.lastChecked := lastChecked api;
     ApiResponseDto.lastHealthCheck := lastHealthCheck api;
     ApiResponseDto.changeCount := changeCount api;
     ApiResponseDto.description := description api |}.

(** [Object.keys(m || {}).length] *)
Definition keys_length (m : option (list (string * string))) : Z :=
  match m with
  | Some kvs => Z.of_nat (List.length kvs)
  | None => 0
  end.

Definition string_of_Z (n : Z) : string :=
  DecimalString.NilZero.string_of_int (Z.to_int n).

(** ** Filters on identifier fields *)

(** What a filter or a stored field can hold where an identifier is meant:
    an [ObjectId], or the string that spells one.  The store compares them
    by type first: a string never equals an [ObjectId]. *)
Inductive BsonValue :=
| BsonObjectId (hex : ObjectId)
| BsonString (s : string).

Definition BsonValue_eqb (a b : BsonValue) : bool :=
  match a, b with
  | BsonObjectId x, BsonObjectId y => (x =? y)%string
  | BsonString x, BsonString y => (x =? y)%string
  | _, _ => false
  end.

(** The strings [new Types.ObjectId(s)] stores as they are spelled, so that
    [toString()] gives [s] back: 24 digits among [0-9a-f].  A 24-digit string
    with upper-case digits is stored in lower case, and any other string
    makes the constructor throw. *)
Definition hex_digit (c : Ascii.ascii) : bool :=
  let n := Ascii.nat_of_ascii c in
  (Nat.leb 48 n && Nat.leb n 57) || (Nat.leb 97 n && Nat.leb n 102).

Definition canonical_id (s : string) : bool :=
  Nat.eqb (String.length s) 24 && forallb hex_digit (list_ascii_of_string s).

(** How a schema types a path: as an [ObjectId] path, whose filters are cast,
    or as a Mixed path, which casts nothing. *)
Inductive PathType := ObjectIdPath | MixedPath.

Definition cast_filter (p : PathType) (v : BsonValue) : BsonValue :=
  match p, v with
  | ObjectIdPath, BsonString s => BsonObjectId s
  | _, _ => v
  end.

(** A filter [{ path: v }] against a document whose field holds the
    [ObjectId] [stored]. *)
Definition matches_id (p : PathType) (v : BsonValue) (stored : ObjectId)
    : bool :=
  BsonValue_eqb (cast_filter p v) (BsonObjectId stored).

(** [changelog-schema.ts], line 6: [type: Types.ObjectId] names the value
    class of [mongoose.Types], not a schema type, so the schema factory builds
    [apiId] as a Mixed path. *)
Definition ChangelogSchema_apiId_path : PathType := MixedPath.

(** ** [ApisService] *)

Section ApisService.

Variable env : Env.
Context {changeDetectorService : ChangeDetectorService}.

(** [JSON.stringify(spec).length]; the serializer is the runtime's. *)
Variable stringify_length : OpenAPISpec -> Z.

(** A store operation standing on line [line]. *)
Definition db {A} (line : nat) (op : World -> A * World) : M A :=
  fun w =>
    match db_fault env line with
    | Some e => (inl e, w)
    | None => let (a, w') := op w in (inr a, w')
    end.

Definition db_read {A} (line : nat) (q : World -> A) : M A :=
  db line (fun w => (q w, w)).

Definition db_write (line : nat) (f : World -> World) : M unit :=
  db line (fun w => (tt, f w)).

(** [axios.get(url, { timeout: 10000, headers })]: the request is issued,
    then it resolves to [response.data] or rejects. *)
Definition axios_get_data (url : string) : M OpenAPISpec :=
  fun w =>
    (axios_get env url,
     {| apis := apis w; snapshots := snapshots w;
        changelogs := changelogs w; requests := requests w ++ [url];
        logs := logs w |}).

Definition lift {A} (r : JsError + A) : M A := fun w => (r, w).

(** [Promise.all]: every operation has been started and runs; the result
    rejects with the first rejection. *)
Fixpoint Promise_all (ops : list (M unit)) : M unit :=
  match ops with
  | [] => ret tt
  | op :: rest =>
      fun w =>
        match op w with
        | (inr _, w') => Promise_all rest w'
        | (inl e, w') => (inl e, snd (Promise_all rest w'))
        end
  end.

(** Lines 42-54. *)
Definition getApisToCheck : M (list Api) :=
  let now := newDate env 43 in
  apis <- db_read 44 (fun w => filter isActive (apis w)) ;;
  ret (filter (isDue now) apis).

(** Lines 208-224. *)
Definition createSnapshot (apiId : ObjectId) (spec : OpenAPISpec) : M unit :=
  try_catch
    (db_write 210
       (with_snapshots (fun l =>
          l ++ [ {| snap_apiId := apiId;
                    snap_version := or_default (spec_version spec) "unknown";
                    snap_spec := spec;
                    detectedAt := newDate env 214;
                    metadata :=
                      {| endpointCount := keys_length (paths spec);
                         schemaCount := keys_length (schemas spec);
                         specSize := stringify_length spec |} |} ])))
    (fun err => logger ("Failed to create snapshot: " ++ message err)).

(** Lines 85-100: the document [new this.apiModel({ ... })] builds.  Line
    92 stores [new Types.ObjectId(userId)], which for a [userId] in canonical
    form ([canonical_id]) spells [userId]. *)
Definition new_Api (dto : CreateApiDto.t) (userId : ObjectId)
    (response_data : OpenAPISpec) (info_version : string) : Api :=
  {| _id := fresh_id env;
     apiName := CreateApiDto.apiName dto;
     openApiUrl := CreateApiDto.openApiUrl dto;
     type := or_default (CreateApiDto.type dto) "openapi";
     version := info_version;
     latestSpec := response_data;
     lastChecked := Some (newDate env 91);
     userId := userId;
     checkFrequency := or_default (CreateApiDto.checkFrequency dto) "1h";
     tags := match CreateApiDto.tags dto with Some ts => ts | None => [] end;
     description := CreateApiDto.description dto;
     healthStatus := healthy;
     lastHealthCheck := Some (newDate env 97);
     lastError := None;
     changeCount := 0;
     isActive := true |}.

(** Lines 71-110: the [try] block of [registerApi]. *)
Definition registerApi_try (dto : CreateApiDto.t) (userId : ObjectId)
    : M ApiResponseDto.t :=
  response_data <- axios_get_data (CreateApiDto.openApiUrl dto) ;;
  match spec_version response_data with
  | Some info_version =>
      if (info_version =? "")%string
      then throw (Error "Invalid OpenAPI spec - missing version information")
      else
        let api := new_Api dto userId response_data info_version in
        savedApi <- db 102 (fun w =>
                      (api, with_apis (fun l => l ++ [api]) w)) ;;
        createSnapshot (_id savedApi) response_data ;;
        ret (toResponseDto savedApi)
  | None =>
      throw (Error "Invalid OpenAPI spec - missing version information")
  end.

(** Lines 111-124: the [catch] block of [registerApi]. *)
Definition registerApi_catch (err : JsError) : M ApiResponseDto.t :=
  logger ("Failed to register API: " ++ message err) ;;
  if match code err with
     | Some c => (c =? "ENOTFOUND")%string || (c =? "ECONNREFUSED")%string
     | None => false
     end
  then throw (Error
         "Cannot connect to API URL. Please check the URL and try again.")
  else
    match response err with
    | Some (status, statusText) =>
        if 400 <=? status
        then throw (Error ("API returned " ++ string_of_Z status
                             ++ ": " ++ statusText))
        else throw (Error ("Failed to register API: " ++ message err))
    | None => throw (Error ("Failed to register API: " ++ message err))
    end.

(** Lines 67-125. *)
Definition registerApi (dto : CreateApiDto.t) (userId : ObjectId)
    : M ApiResponseDto.t :=
  try_catch (registerApi_try dto userId) registerApi_catch.

(** Lines 127-206. *)
Definition checkApiForChanges (apiId : ObjectId) : M CheckResult.t :=
  let no_changes :=
    {| CheckResult.hasChanges := false; CheckResult.changes := None;
       CheckResult.newVersion := None |} in
  found <- db_read 132 (fun w => findById apiId (apis w)) ;;
  match found with
  | None => ret no_changes
  | Some api =>
      if negb (isActive api) then ret no_changes
      else
        try_catch
          (logger ("Checking API for changes: " ++ apiName api) ;;
           db_write 141
             (with_apis (findByIdAndUpdate apiId
                [ Set_healthStatus checking;
                  Set_lastHealthCheck (newDate env 143) ])) ;;
           newSpec <- axios_get_data (openApiUrl api) ;;
           let oldSpec := latestSpec api in
           changeResult <- lift (detectChanges oldSpec newSpec apiId) ;;
           db_write 162
             (with_apis (findByIdAndUpdate apiId
                [ Set_healthStatus healthy;
                  Set_lastChecked (newDate env 164);
                  Set_lastHealthCheck (newDate env 165);
                  Set_lastError None ])) ;;
           if ChangeDetector.hasChanges changeResult
           then
             db_write 171
               (with_apis (findByIdAndUpdate apiId
                  [ Set_latestSpec newSpec;
                    Set_version
                      (or_default (spec_version newSpec) (version api));
                    Set_changeCount (changeCount api + 1) ])) ;;
             createSnapshot apiId newSpec ;;
             logger ("Changes detected for API: " ++ apiName api) ;;
             ret {| CheckResult.hasChanges := true;
                    CheckResult.changes :=
                      Some (ChangeDetector.changes changeResult);
                    CheckResult.newVersion := spec_version newSpec |}
           else
             db_write 189
               (with_apis (findByIdAndUpdate apiId
                  [ Set_lastChecked (newDate env 190) ])) ;;
             ret no_changes)
          (fun err =>
             logger ("Error checking API " ++ apiName api ++ ": "
                       ++ message err) ;;
             db_write 198
               (with_apis (findByIdAndUpdate apiId
                  [ Set_healthStatus error;
                    Set_lastHealthCheck (newDate env 200);
                    Set_lastError (Some (message err)) ])) ;;
             ret no_changes)
  end.

(** The schema type of [apiId] in the snapshot schema
    ([api-snapshot.schema.ts] is not among the sources). *)
Variable ApiSnapshot_apiId_path : PathType.

(** Lines 256-271.  The two [deleteMany] filters carry the raw [id] string;
    the stored [apiId] fields hold [ObjectId]s. *)
Definition deleteApi (id : ObjectId) (userId_ : ObjectId) : M unit :=
  found <- db_read 257 (fun w => findById id (apis w)) ;;
  match found with
  | None => throw (NotFoundException "API not found")
  | Some api =>
      if negb (userId api =? userId_)%string
      then throw (ForbiddenException "Access denied")
      else
        Promise_all
          [ db_write 267 (with_apis (findByIdAndDelete id));
            db_write 268
              (with_snapshots
                 (deleteMany (fun s =>
                    matches_id ApiSnapshot_apiId_path (BsonString id)
                      (snap_apiId s))));
            db_write 269
              (with_changelogs
                 (deleteMany (fun c =>
                    matches_id ChangelogSchema_apiId_path (BsonString id)
                      (apiId c)))) ]
  end.

(** Lines 331-373. *)
Definition getApiStats (userId_ : ObjectId) : M ApiStatsDto.t :=
  let userObjectId := userId_ in
  let owned := fun a : Api => (userId a =? userObjectId)%string in
  totalApis <- db_read 341 (fun w => countDocuments owned (apis w)) ;;
  activeApis <- db_read 342 (fun w =>
      countDocuments (fun a => owned a && isActive a) (apis w)) ;;
  healthyApis <- db_read 343 (fun w =>
      countDocuments
        (fun a => owned a && HealthStatus_eqb (healthStatus a) healthy)
        (apis w)) ;;
  unhealthyApis <- db_read 347 (fun w =>
      countDocuments
        (fun a => owned a
                  && existsb (HealthStatus_eqb (healthStatus a))
                       [unhealthy; error])
        (apis w)) ;;
  totalChangesResult <- db_read 351 (fun w =>
      aggregate_sum owned changeCount (apis w)) ;;
  let sevenDaysAgo := minusDays env (newDate env 358) 7 in
  recentChanges <- db_read 361 (fun w =>
      countDocuments (fun c => sevenDaysAgo <=? timestamp c)
        (changelogs w)) ;;
  ret {| ApiStatsDto.totalApis := totalApis;
         ApiStatsDto.activeApis := activeApis;
         ApiStatsDto.healthyApis := healthyApis;
         ApiStatsDto.unhealthyApis := unhealthyApis;
         ApiStatsDto.recentChanges := recentChanges;
         ApiStatsDto.totalChanges :=
           match totalChangesResult with
           | total :: _ => total
           | [] => 0
           end |}.

(** *** Documents and conditions the properties speak of *)

(** The three update documents of a check that detects a change, applied to
    the document read at line 132. *)
Definition after_change (api : Api) (newSpec : OpenAPISpec) : Api :=
  apply_update
    [ Set_latestSpec newSpec;
      Set_version (or_default (spec_version newSpec) (version api));
      Set_changeCount (changeCount api + 1) ]
    (apply_update
       [ Set_healthStatus healthy; Set_lastChecked (newDate env 164);
         Set_lastHealthCheck (newDate env 165); Set_lastError None ]
       (apply_update
          [ Set_healthStatus checking; Set_lastHealthCheck (newDate env 143) ]
          api)).

(** The update documents up to the one a rejection interrupts, followed by
    the handler's. *)
Definition after_error (api : Api) (msg : string) (reached162 : bool) : Api :=
  apply_update
    [ Set_healthStatus error; Set_lastHealthCheck (newDate env 200);
      Set_lastError (Some msg) ]
    ((if reached162
      then apply_update
             [ Set_healthStatus healthy; Set_lastChecked (newDate env 164);
               Set_lastHealthCheck (newDate env 165); Set_lastError None ]
      else fun a => a)
       (apply_update
          [ Set_healthStatus checking; Set_lastHealthCheck (newDate env 143) ]
          api)).

Definition no_changes : CheckResult.t :=
  {| CheckResult.hasChanges := false; CheckResult.changes := None;
     CheckResult.newVersion := None |}.

(** A target update is refused with [e]: the one of line 162, or, that one
    accepted, the one of line 171 (changes) or 189 (no change). *)
Definition update_refused (r : ChangeDetector.Result) (e : JsError)
    (reached162 : bool) : Prop :=
  if reached162
  then db_fault env 162 = None
       /\ db_fault env (if ChangeDetector.hasChanges r then 171 else 189)%nat
          = Some e
  else db_fault env 162 = Some e.

(** Registration fails: the fetch is rejected, the document has no usable
    [info.version], or the store refuses the new target. *)
Definition registration_fails (dto : CreateApiDto.t) : Prop :=
  match axios_get env (CreateApiDto.openApiUrl dto) with
  | inl _ => True
  | inr spec =>
      truthy (spec_version spec) = false \/ db_fault env 102 <> None
  end.

Definition stats_reads_succeed : Prop :=
  db_fault env 341 = None /\ db_fault env 342 = None
  /\ db_fault env 343 = None /\ db_fault env 347 = None
  /\ db_fault env 351 = None /\ db_fault env 361 = None.

End ApisService.

(** ** [ApisService]: the owner's operations *)

(** What [testApiConnection] resolves to ([ApiHealthDto]); [status] is one of
    ['healthy'] and ['unhealthy']. *)
Module ApiHealthDto.
Record t := {
  id : string;
  apiName : string;
  status : HealthStatus;
  responseTime : option Z;
  lastChecked : Date;
  uptime : option Z;
  error : option string
}.
End ApiHealthDto.

(** A snapshot as [getApiSnapshots] returns it: [select('-spec')] leaves the
    document payload out. *)
Record SnapshotSummary := {
  sum_apiId : ObjectId;
  sum_version : string;
  sum_detectedAt : Date;
  sum_metadata : SnapshotMetadata
}.

Definition without_spec (s : ApiSnapshot) : SnapshotSummary :=
  {| sum_apiId := snap_apiId s; sum_version := snap_version s;
     sum_detectedAt := detectedAt s; sum_metadata := metadata s |}.

(** [api.isActive = b] on a loaded document. *)
Definition set_isActive (b : bool) (a : Api) : Api :=
  {| _id := _id a; apiName := apiName a; openApiUrl := openApiUrl a;
     type := type a; version := version a; latestSpec := latestSpec a;
     lastChecked := lastChecked a; userId := userId a;
     checkFrequency := checkFrequency a; tags := tags a;
     description := description a; healthStatus := healthStatus a;
     lastHealthCheck := lastHealthCheck a; lastError := lastError a;
     changeCount := changeCount a; isActive := b |}.

(** [doc.save()] on a loaded document whose only modified path is
    [isActive]: the store sets that path on the document with the same
    [_id].  It also rewrites the document's [updatedAt], one of the two
    timestamps the [Api] record leaves out. *)
Definition save_isActive (doc : Api) (l : list Api) : list Api :=
  map (fun a => if (_id a =? _id doc)%string
                then set_isActive (isActive doc) a else a) l.

(** [.sort({ key: -1 })]: larger keys first.  The store leaves the order of
    equal keys open; here they keep the order they are stored in. *)
Fixpoint insert_desc {A} (key : A -> Z) (x : A) (l : list A) : list A :=
  match l with
  | [] => [x]
  | y :: rest =>
      if key y <=? key x then x :: l else y :: insert_desc key x rest
  end.

Definition sort_desc {A} (key : A -> Z) (l : list A) : list A :=
  fold_right (insert_desc key) [] l.

(** [.limit(n)]: 0 is no limit, a positive [n] keeps the first [n]
    documents; for a negative [n] the driver asks for a single batch of at
    most [-n] documents, which [single_batch] stands for. *)
Definition cursor_limit {A} (single_batch : nat -> list A -> list A)
    (n : Z) (l : list A) : list A :=
  if n =? 0 then l
  else if 0 <? n then firstn (Z.to_nat n) l
  else single_batch (Z.to_nat (- n)) l.

Section ApisServiceOwner.

Variable env : Env.

(** The creation time the store keeps with every target ([createdAt], which
    the [Api] record above leaves out). *)
Variable createdAt : ObjectId -> Date.

Variable single_batch : nat -> list ApiSnapshot -> list ApiSnapshot.

(** Lines 33-39. *)
Definition getAllApis (userId_ : ObjectId) : M (list ApiResponseDto.t) :=
  apis <- db_read env 34 (fun w =>
            sort_desc (fun a => createdAt (_id a))
              (filter (fun a => (userId a =? userId_)%string) (apis w))) ;;
  ret (map toResponseDto apis).

(** Lines 227-236. *)
Definition getApiById (id userId_ : ObjectId) : M ApiResponseDto.t :=
  found <- db_read env 228 (fun w => findById id (apis w)) ;;
  match found with
  | None => throw (NotFoundException "API not found")
  | Some api =>
      if negb (userId api =? userId_)%string
      then throw (ForbiddenException "Access denied")
      else ret (toResponseDto api)
  end.

(** Lines 276-297: the [try] block of [testApiConnection]; the two
    [Date.now()] readings come from the same clock as [new Date()]. *)
Definition testApiConnection_try (id : ObjectId) (api : ApiResponseDto.t)
    : M ApiHealthDto.t :=
  let startTime := newDate env 277 in
  axios_get_data env (ApiResponseDto.openApiUrl api) ;;
  let responseTime := newDate env 282 - startTime in
  db_write env 284
    (with_apis (findByIdAndUpdate id
       [ Set_healthStatus healthy;
         Set_lastHealthCheck (newDate env 286);
         Set_lastError None ])) ;;
  ret {| ApiHealthDto.id := ApiResponseDto.id api;
         ApiHealthDto.apiName := ApiResponseDto.apiName api;
         ApiHealthDto.status := healthy;
         ApiHealthDto.responseTime := Some responseTime;
         ApiHealthDto.lastChecked := newDate env 295;
         ApiHealthDto.uptime := Some 100;
         ApiHealthDto.error := None |}.

(** Lines 298-314: its [catch] block. *)
Definition testApiConnection_catch (id : ObjectId) (api : ApiResponseDto.t)
    (err : JsError) : M ApiHealthDto.t :=
  let errorMessage :=
    if (message err =? "")%string then "Connection failed"%string
    else message err in
  db_write env 301
    (with_apis (findByIdAndUpdate id
       [ Set_healthStatus unhealthy;
         Set_lastHealthCheck (newDate env 303);
         Set_lastError (Some errorMessage) ])) ;;
  ret {| ApiHealthDto.id := ApiResponseDto.id api;
         ApiHealthDto.apiName := ApiResponseDto.apiName api;
         ApiHealthDto.status := unhealthy;
         ApiHealthDto.responseTime := None;
         ApiHealthDto.lastChecked := newDate env 311;
         ApiHealthDto.uptime := None;
         ApiHealthDto.error := Some errorMessage |}.

(** Lines 273-315. *)
Definition testApiConnection (id userId_ : ObjectId) : M ApiHealthDto.t :=
  api <- getApiById id userId_ ;;
  try_catch (testApiConnection_try id api) (testApiConnection_catch id api).

(** Lines 317-329. *)
Definition toggleApiStatus (id userId_ : ObjectId) : M ApiResponseDto.t :=
  found <- db_read env 318 (fun w => findById id (apis w)) ;;
  match found with
  | None => throw (NotFoundException "API not found")
  | Some api =>
      if negb (userId api =? userId_)%string
      then throw (ForbiddenException "Access denied")
      else
        let api := set_isActive (negb (isActive api)) api in
        updatedApi <- db env 327 (fun w =>
                        (api, with_apis (save_isActive api) w)) ;;
        ret (toResponseDto updatedApi)
  end.

(** Lines 375-384. *)
Definition getApisByTag (tag : string) (userId_ : ObjectId)
    : M (list ApiResponseDto.t) :=
  apis <- db_read env 376 (fun w =>
            sort_desc (fun a => createdAt (_id a))
              (filter (fun a => (userId a =? userId_)%string
                                && existsb (String.eqb tag) (tags a))
                 (apis w))) ;;
  ret (map toResponseDto apis).

(** Lines 405-419; [limit] is [None] when the caller leaves it out. *)
Definition getApiSnapshots (apiId userId_ : ObjectId) (limit : option Z)
    : M (list SnapshotSummary) :=
  let limit := match limit with Some n => n | None => 10 end in
  getApiById apiId userId_ ;;
  db_read env 413 (fun w =>
    map without_spec
      (cursor_limit single_batch limit
         (sort_desc detectedAt
            (filter (fun s => (snap_apiId s =? apiId)%string)
               (snapshots w))))).

End ApisServiceOwner.

(** ** [changelog-schema.ts]: the indexes and the store's insert under them *)

Inductive ChangelogPath :=
| P_apiId | P_previousVersion | P_newVersion | P_diffSummary | P_timestamp.

Inductive FieldValue :=
| V_string (s : string)
| V_date (d : Date).

Definition FieldValue_eqb (a b : FieldValue) : bool :=
  match a, b with
  | V_string s, V_string t => (s =? t)%string
  | V_date d, V_date e => d =? e
  | _, _ => false
  end.

Definition field_value (p : ChangelogPath) (c : Changelog) : FieldValue :=
  match p with
  | P_apiId => V_string (apiId c)
  | P_previousVersion => V_string (previousVersion c)
  | P_newVersion => V_string (newVersion c)
  | P_diffSummary => V_string (diffSummary c)
  | P_timestamp => V_date (timestamp c)
  end.

Record IndexSpec := {
  keys : list (ChangelogPath * Z);
  unique : bool
}.

(** The two [index: true] properties (lines 6 and 18) and the three
    [ChangelogSchema.index] calls (lines 24, 27-30 and 33). *)
Definition ChangelogSchema_indexes : list IndexSpec :=
  [ {| keys := [(P_apiId, 1)]; unique := false |};
    {| keys := [(P_timestamp, 1)]; unique := false |};
    {| keys := [(P_apiId, 1); (P_timestamp, -1)]; unique := false |};
    {| keys := [(P_apiId, 1); (P_previousVersion, 1); (P_newVersion, 1)];
       unique := true |};
    {| keys := [(P_timestamp, -1)]; unique := false |} ].

(** The [required: true] properties (lines 6-16). *)
Definition ChangelogSchema_required : list ChangelogPath :=
  [ P_apiId; P_previousVersion; P_newVersion; P_diffSummary ].

(** What [required] asks of a path: on a string path the validator refuses
    a missing or empty string; on the Mixed path [apiId] it refuses only a
    missing value, which a [Changelog] record never has. *)
Definition required_holds (p : ChangelogPath) (c : Changelog) : bool :=
  match p with
  | P_apiId => true
  | _ => negb (FieldValue_eqb (field_value p c) (V_string ""))
  end.

Definition validates (c : Changelog) : bool :=
  forallb (fun p => required_holds p c) ChangelogSchema_required.

Definition index_key (ix : IndexSpec) (c : Changelog) : list FieldValue :=
  map (fun k => field_value (fst k) c) (keys ix).

Fixpoint key_eqb (a b : list FieldValue) : bool :=
  match a, b with
  | [], [] => true
  | x :: a', y :: b' => FieldValue_eqb x y && key_eqb a' b'
  | _, _ => false
  end.

(** A unique index holds the key of [c] already. *)
Definition duplicate_key (ix : IndexSpec) (c : Changelog)
    (stored : list Changelog) : bool :=
  unique ix
  && existsb (fun d => key_eqb (index_key ix d) (index_key ix c)) stored.

(** The document store's insert into a collection carrying [indexes] (the
    store is an external collaborator with unique-constraint support): a
    document whose key is already held by a unique index is refused with a
    duplicate-key error and the collection stays as it was. *)
Definition insert_one (indexes : list IndexSpec) (c : Changelog)
    (stored : list Changelog) : (JsError + unit) * list Changelog :=
  if existsb (fun ix => duplicate_key ix c stored) indexes
  then (inl {| name := "MongoServerError";
               message := "E11000 duplicate key error";
               code := Some "11000"; response := None |}, stored)
  else (inr tt, stored ++ [c]).

(** [changelogModel.create(doc)]: schema validation, then the insert. *)
Definition changelogModel_create (c : Changelog) (stored : list Changelog)
    : (JsError + unit) * list Changelog :=
  if validates c
  then insert_one ChangelogSchema_indexes c stored
  else (inl {| name := "ValidationError";
               message := "Changelog validation failed";
               code := None; response := None |}, stored).

(** What can happen to the changelog collection: a create, or a
    [deleteMany] whose filter holds the target's [ObjectId]. *)
Inductive ChangelogOp :=
| Create (c : Changelog)
| DeleteMany (id : ObjectId).

Definition changelog_step (stored : list Changelog) (op : ChangelogOp)
    : list Changelog :=
  match op with
  | Create c => snd (changelogModel_create c stored)
  | DeleteMany id => deleteMany (fun c => (apiId c =? id)%string) stored
  end.

Definition changelog_run (ops : list ChangelogOp) : list Changelog :=
  fold_left changelog_step ops [].

(** The entries recording the transition [prev -> next] of target [id]. *)
Definition same_transition (id : ObjectId) (prev next : string)
    (c : Changelog) : bool :=
  (apiId c =? id)%string && (previousVersion c =? prev)%string
  && (newVersion c =? next)%string.

Definition transition_count (id : ObjectId) (prev next : string)
    (stored : list Changelog) : nat :=
  List.length (filter (same_transition id prev next) stored).

(** ** The scheduler's rule in the words of the specification *)

(** [intervalFor]: the five frequency tokens in minutes, one hour for
    anything else. *)
Definition spec_intervalMinutes (frequency : string) : Z :=
  if (frequency =? "5m")%string then 5
  else if (frequency =? "15m")%string then 15
  else if (frequency =? "1h")%string then 60
  else if (frequency =? "6h")%string then 360
  else if (frequency =? "1d")%string then 1440
  else 60.

Definition spec_isDue (now : Date) (api : Api) : bool :=
  match lastChecked api with
  | None => true
  | Some last => spec_intervalMinutes (checkFrequency api) * 60 * 1000 <=? now - last
  end.

(** ** A change detector for the worked scenarios *)

(** Modelled from the spec: the path-level rule of [detectChanges] (§4.1),
    the only part of [change-detector.service.ts] the scenarios below
    exercise: absent [paths] is an empty map; a path present in the current
    document but not in the previous one is an addition (non-breaking), one
    present in the previous but not in the current is a removal (breaking). *)
Definition path_names (spec : OpenAPISpec) : list string :=
  match paths spec with
  | Some kvs => map fst kvs
  | None => []
  end.

Definition absent_from (names : list string) (p : string) : bool :=
  negb (existsb (String.eqb p) names).

Definition path_change (k : ChangeDetector.Kind) (b : bool) (p : string)
    : ChangeDetector.Change :=
  {| ChangeDetector.kind := k;
     ChangeDetector.category := ChangeDetector.path;
     ChangeDetector.location := p;
     ChangeDetector.breaking := b |}.

Definition detect_path_changes (previousDoc currentDoc : OpenAPISpec)
    (targetId : ObjectId) : JsError + ChangeDetector.Result :=
  let additions :=
    filter (absent_from (path_names previousDoc)) (path_names currentDoc) in
  let removals :=
    filter (absent_from (path_names currentDoc)) (path_names previousDoc) in
  let found :=
    map (path_change ChangeDetector.added false) additions
    ++ map (path_change ChangeDetector.removed true) removals in
  inr {| ChangeDetector.hasChanges :=
           match found with [] => false | _ :: _ => true end;
         ChangeDetector.changes := found |}.

Definition PathDetector : ChangeDetectorService :=
  {| detectChanges := detect_path_changes |}.

(** ** Vocabulary of the properties *)

Definition transition_index : IndexSpec :=
  {| keys := [(P_apiId, 1); (P_previousVersion, 1); (P_newVersion, 1)];
     unique := true |}.

Definition transition_of (c : Changelog) : Changelog -> bool :=
  same_transition (apiId c) (previousVersion c) (newVersion c).

(** At most one stored entry per transition. *)
Definition transitions_unique (stored : list Changelog) : Prop :=
  forall id prev next, (transition_count id prev next stored <= 1)%nat.

(** The documents of the other targets, in order. *)
Definition others (id : ObjectId) (l : list Api) : list Api :=
  filter (fun a => negb (_id a =? id)%string) l.

Definition owned_by (user : ObjectId) (l : list Api) : list Api :=
  filter (fun a => (userId a =? user)%string) l.

Definition since (d : Date) (l : list Changelog) : list Changelog :=
  filter (fun c => d <=? timestamp c) l.

Fixpoint sum_changeCount (l : list Api) : Z :=
  match l with
  | [] => 0
  | a :: rest => changeCount a + sum_changeCount rest
  end.

Definition resolved {A} (r : JsError + A) : bool :=
  match r with
  | inr _ => true
  | inl _ => false
  end.

(** ** Worked scenarios *)

Definition target_id : ObjectId := "64b000000000000000000001".
Definition other_id : ObjectId := "64b000000000000000000002".
Definition owner_id : ObjectId := "64a000000000000000000001".
Definition stranger_id : ObjectId := "64a000000000000000000002".

Definition info_1_0_0 : option SpecInfo :=
  Some {| info_version := Some "1.0.0" |}.

(** Version 1.0.0 with no paths; the same with one path [/users] (GET); and
    that document again without its [info]. *)
Definition spec_v1 : OpenAPISpec :=
  {| info := info_1_0_0; paths := Some []; schemas := None |}.

Definition spec_v1_users : OpenAPISpec :=
  {| info := info_1_0_0; paths := Some [("/users", "get")];
     schemas := None |}.

Definition spec_unversioned_users : OpenAPISpec :=
  {| info := None; paths := Some [("/users", "get")]; schemas := None |}.

(** A target registered from [spec_v1] at time 1000. *)
Definition target_v1 (id : ObjectId) (frequency : string)
    (h : HealthStatus) : Api :=
  {| _id := id; apiName := "users";
     openApiUrl := "https://users.example/openapi.json"; type := "openapi";
     version := "1.0.0"; latestSpec := spec_v1; lastChecked := Some 1000;
     userId := owner_id; checkFrequency := frequency; tags := [];
     description := None; healthStatus := h; lastHealthCheck := Some 1000;
     lastError := None; changeCount := 0; isActive := true |}.

Definition no_faults : nat -> option JsError := fun _ => None.

Definition fault_at (line : nat) (e : JsError) : nat -> option JsError :=
  fun n => if Nat.eqb n line then Some e else None.

Definition scenario_env (now : Date) (fetch : JsError + OpenAPISpec)
    (faults : nat -> option JsError) : Env :=
  {| newDate := fun _ => now;
     db_fault := faults;
     axios_get := fun _ => fetch;
     fresh_id := target_id;
     minusDays := fun d n => d - n * 86400000 |}.

Definition timeout_error : JsError :=
  {| name := "AxiosError"; message := "timeout of 10000ms exceeded";
     code := Some "ECONNABORTED"; response := None |}.

Definition write_error : JsError :=
  {| name := "MongoServerError"; message := "connection pool closed";
     code := None; response := None |}.

Definition world_of (targets : list Api) : World :=
  {| apis := targets; snapshots := []; changelogs := []; requests := [];
     logs := [] |}.

(** The scenarios do not read [specSize]. *)
Definition unmeasured : OpenAPISpec -> Z := fun _ => 0.

Definition users_target : Api := target_v1 target_id "1h" healthy.

Definition users_url : string := "https://users.example/openapi.json".

(** The scheduled check of the scenario target with the path detector. *)
Definition scenario_check (fetch : JsError + OpenAPISpec)
    (faults : nat -> option JsError) (w : World)
    : (JsError + CheckResult.t) * World :=
  @checkApiForChanges (scenario_env 5000 fetch faults) PathDetector unmeasured
    target_id w.

Definition users_dto : CreateApiDto.t :=
  {| CreateApiDto.apiName := "users";
     CreateApiDto.openApiUrl := users_url;
     CreateApiDto.type := None;
     CreateApiDto.checkFrequency := None;
     CreateApiDto.tags := None;
     CreateApiDto.description := None |}.

Definition entry_1_to_2 (summary : string) (at_ : Date) : Changelog :=
  {| apiId := target_id; previousVersion := "1.0.0"; newVersion := "2.0.0";
     diffSummary := summary; timestamp := at_ |}.

Definition snapshot_of (id : ObjectId) : ApiSnapshot :=
  {| snap_apiId := id; snap_version := "1.0.0"; snap_spec := spec_v1;
     detectedAt := 1000;
     metadata := {| endpointCount := 0; schemaCount := 0; specSize := 0 |} |}.

Definition entry_of (id : ObjectId) (at_ : Date) : Changelog :=
  {| apiId := id; previousVersion := "1.0.0"; newVersion := "1.1.0";
     diffSummary := "1 path added"; timestamp := at_ |}.

(** Two targets of one owner, each with a snapshot and a changelog entry. *)
Definition two_targets : World :=
  {| apis := [users_target; target_v1 other_id "1h" healthy];
     snapshots := [snapshot_of target_id; snapshot_of other_id];
     changelogs := [entry_of target_id 2000; entry_of other_id 3000];
     requests := []; logs := [] |}.

(** ** Vocabulary of the further properties *)

(** What the owner's operations answer before doing anything: the rejection
    for a missing target or a caller who is not its owner. *)
Definition access_refusal (w : World) (id user : ObjectId) : option JsError :=
  match findById id (apis w) with
  | None => Some (NotFoundException "API not found")
  | Some api =>
      if (userId api =? user)%string then None
      else Some (ForbiddenException "Access denied")
  end.

(** What the [catch] block of [testApiConnection] receives, if anything: the
    rejection of the GET, or else that of the store update of line 284. *)
Definition connection_error (env : Env) (url : string) : option JsError :=
  match axios_get env url with
  | inl e => Some e
  | inr _ => db_fault env 284
  end.

(** [error.message || 'Connection failed'] *)
Definition connection_message (e : JsError) : string :=
  if (message e =? "")%string then "Connection failed" else message e.

(** The call resolved and reported a change. *)
Definition reported_change (r : JsError + CheckResult.t) : bool :=
  match r with
  | inr res => CheckResult.hasChanges res
  | inl _ => false
  end.

(** What [deleteApi] leaves of a collection whose delete the store accepts
    ([fault] is [None]) or refuses. *)
Definition unless_refused {A} (fault : option JsError)
    (deleted kept : list A) : list A :=
  match fault with
  | None => deleted
  | Some _ => kept
  end.

Definition checking_count (l : list Api) : Z :=
  Z.of_nat (List.length
    (filter (fun a => HealthStatus_eqb (healthStatus a) checking) l)).

(** Larger keys first. *)
Definition descending {A} (key : A -> Z) : list A -> Prop :=
  StronglySorted (fun a b => key a >= key b).

(** A second caller's target, inactive, and a world holding it beside the
    scenario target. *)
Definition stranger_target : Api :=
  {| _id := other_id; apiName := "billing";
     openApiUrl := "https://billing.example/openapi.json"; type := "openapi";
     version := "2.3.0"; latestSpec := spec_v1; lastChecked := None;
     userId := stranger_id; checkFrequency := "6h"; tags := ["internal"];
     description := None; healthStatus := unhealthy;
     lastHealthCheck := Some 500; lastError := Some "Connection failed";
     changeCount := 4; isActive := false |}.

Definition mixed_world : World :=
  {| apis := [users_target; stranger_target];
     snapshots := [snapshot_of target_id; snapshot_of other_id];
     changelogs := [entry_of target_id 2000; entry_of other_id 3000];
     requests := []; logs := [] |}.

Definition first_batch : nat -> list ApiSnapshot -> list ApiSnapshot :=
  fun n l => firstn n l.

(** The store's creation times in [mixed_world]: the scenario target is the
    older one. *)
Definition created_at : ObjectId -> Date :=
  fun id => if (id =? target_id)%string then 100 else 200.

(** A detector that rejects. *)
Definition RejectingDetector : ChangeDetectorService :=
  {| detectChanges := fun _ _ _ =>
       inl (Error "Cannot read properties of undefined") |}.

(** The scenario target with three snapshots, stored oldest first. *)
Definition snapshot_at (id : ObjectId) (at_ : Date) : ApiSnapshot :=
  {| snap_apiId := id; snap_version := "1.0.0"; snap_spec := spec_v1;
     detectedAt := at_;
     metadata := {| endpointCount := 0; schemaCount := 0; specSize := 0 |} |}.

Definition history_world : World :=
  {| apis := [users_target; stranger_target];
     snapshots := [snapshot_at target_id 1000; snapshot_at other_id 1500;
                   snapshot_at target_id 2000; snapshot_at target_id 3000];
     changelogs := []; requests := []; logs := [] |}.

Definition quiet_env : Env :=
  scenario_env 5000 (inl timeout_error) no_faults.

Definition answering_env : Env :=
  scenario_env 5000 (inr spec_v1_users) no_faults.

(** * Properties *)

(** ** Due-target selection *)

Lemma getCheckIntervalMs_token (frequency : string) :
  existsb (String.eqb frequency) Object_prototype = false ->
  getCheckIntervalMs frequency
  = Some (JsNumber (spec_intervalMinutes frequency * 60 * 1000)).
Proof.
  intros Hproto.
  unfold getCheckIntervalMs, get_property, spec_intervalMinutes.
  rewrite Hproto. unfold intervals. cbn [own_property].
  rewrite (String.eqb_sym "5m"), (String.eqb_sym "15m"),
    (String.eqb_sym "1h"), (String.eqb_sym "6h"), (String.eqb_sym "1d").
  destruct (frequency =? "5m")%string; [reflexivity|].
  destruct (frequency =? "15m")%string; [reflexivity|].
  destruct (frequency =? "1h")%string; [reflexivity|].
  destruct (frequency =? "6h")%string; [reflexivity|].
  destruct (frequency =? "1d")%string; reflexivity.
Qed.

Lemma getCheckIntervalMs_inherited (frequency : string) :
  existsb (String.eqb frequency) Object_prototype = true ->
  getCheckIntervalMs frequency = Some (JsInherited frequency).
Proof.
  intros Hproto.
  unfold getCheckIntervalMs, get_property.
  assert (Hown : own_property intervals frequency = None).
  { unfold intervals. cbn [own_property].
    repeat match goal with
           | |- context [(?k =? frequency)%string] =>
               destruct (String.eqb_spec k frequency) as [<-|_];
               [ vm_compute in Hproto; discriminate Hproto | ]
           end.
    reflexivity. }
  rewrite Hown, Hproto. reflexivity.
Qed.

(** Away from the inherited member names, the filter callback is the rule of
    the specification. *)
Lemma isDue_spec_isDue (now : Date) (api : Api) :
  existsb (String.eqb (checkFrequency api)) Object_prototype = false ->
  isDue now api = spec_isDue now api.
Proof.
  intros Hproto. unfold isDue, spec_isDue.
  destruct (lastChecked api) as [last|]; [|reflexivity].
  rewrite (getCheckIntervalMs_token _ Hproto). reflexivity.
Qed.

(** With an inherited member name as frequency, a target that was checked
    once is never due again. *)
Lemma isDue_inherited (now last : Date) (api : Api) :
  existsb (String.eqb (checkFrequency api)) Object_prototype = true ->
  lastChecked api = Some last ->
  isDue now api = false.
Proof.
  intros Hproto Hlast. unfold isDue. rewrite Hlast.
  rewrite (getCheckIntervalMs_inherited _ Hproto). reflexivity.
Qed.

Lemma getApisToCheck_run (env : Env) (w : World) :
  db_fault env 44 = None ->
  getApisToCheck env w
  = (inr (filter (isDue (newDate env 43)) (filter isActive (apis w))), w).
Proof.
  intros Hdb. unfold getApisToCheck, bind, db_read, db, ret.
  rewrite Hdb. reflexivity.
Qed.

(** The selection on targets whose frequency is one of the five tokens or any
    other string that is not an inherited member name: exactly the active
    targets that were never checked or whose interval has elapsed. *)
Lemma getApisToCheck_selects (env : Env) (w : World) (api : Api) :
  db_fault env 44 = None ->
  existsb (String.eqb (checkFrequency api)) Object_prototype = false ->
  exists due,
    getApisToCheck env w = (inr due, w)
    /\ (In api due <->
        In api (apis w) /\ isActive api = true
        /\ (lastChecked api = None
            \/ exists last,
                 lastChecked api = Some last
                 /\ newDate env 43 - last
                    >= spec_intervalMinutes (checkFrequency api) * 60 * 1000)).
Proof.
  intros Hdb Hproto. eexists. split; [apply getApisToCheck_run, Hdb|].
  rewrite !filter_In, (isDue_spec_isDue _ _ Hproto).
  unfold spec_isDue.
  destruct (lastChecked api) as [last|].
  - split.
    + intros [[Hin Hact] Hdue]. apply Z.leb_le in Hdue.
      repeat split; try assumption. right. exists last. split; [reflexivity|lia].
    + intros (Hin & Hact & [Hnone | (l & Hl & Hge)]); [discriminate|].
      injection Hl as <-. repeat split; try assumption. apply Z.leb_le. lia.
  - split.
    + intros [[Hin Hact] _]. repeat split; try assumption. now left.
    + intros (Hin & Hact & _). repeat split; assumption.
Qed.

(** C4, at the failing input: a target with frequency ["constructor"], last
    checked at time 1000.  The frequency is none of the five tokens, and a
    full day later the one-hour interval of the specification has long
    elapsed ([spec_isDue] selects the target), yet [intervals["constructor"]]
    is the inherited [Object] function, the comparison with it is false, and
    [getApisToCheck] selects nothing. *)
Theorem getApisToCheck_inherited_frequency :
  let now := 1000 + 24 * 60 * 60 * 1000 in
  let target := target_v1 target_id "constructor" healthy in
  isActive target = true
  /\ spec_isDue now target = true
  /\ getCheckIntervalMs "constructor" = Some (JsInherited "constructor")
  /\ fst (getApisToCheck (scenario_env now (inl timeout_error) no_faults)
            (world_of [target]))
     = inr [].
Proof. repeat split. Qed.

(** ** The changelog collection under its unique index *)

Lemma same_key_same_transition (c d : Changelog) :
  key_eqb (index_key transition_index d) (index_key transition_index c)
  = transition_of c d.
Proof.
  unfold transition_of, same_transition. cbn.
  rewrite andb_true_r, andb_assoc. reflexivity.
Qed.

Lemma duplicate_in_schema (c : Changelog) (stored : list Changelog) :
  existsb (fun ix => duplicate_key ix c stored) ChangelogSchema_indexes
  = existsb (transition_of c) stored.
Proof.
  unfold ChangelogSchema_indexes, duplicate_key.
  cbn [existsb unique andb orb]. rewrite orb_false_r.
  induction stored as [|d rest IH]; [reflexivity|].
  cbn [existsb]. rewrite IH.
  fold transition_index. rewrite same_key_same_transition. reflexivity.
Qed.

Lemma transition_count_app id prev next (l l' : list Changelog) :
  transition_count id prev next (l ++ l')
  = (transition_count id prev next l + transition_count id prev next l')%nat.
Proof.
  unfold transition_count. rewrite filter_app, length_app. reflexivity.
Qed.

Lemma transition_count_absent id prev next (l : list Changelog) :
  existsb (same_transition id prev next) l = false ->
  transition_count id prev next l = 0%nat.
Proof.
  unfold transition_count.
  induction l as [|d rest IH]; [reflexivity|].
  cbn [existsb filter]. intros H. apply orb_false_iff in H as [Hd Hrest].
  rewrite Hd. auto.
Qed.

Lemma transition_count_present id prev next (l : list Changelog) :
  existsb (same_transition id prev next) l = true ->
  (1 <= transition_count id prev next l)%nat.
Proof.
  unfold transition_count.
  induction l as [|d rest IH]; [discriminate|].
  cbn [existsb filter]. intros H.
  destruct (same_transition id prev next d); cbn [List.length]; [lia|auto].
Qed.

Lemma same_transition_eq (c : Changelog) id prev next :
  same_transition id prev next c = true ->
  id = apiId c /\ prev = previousVersion c /\ next = newVersion c.
Proof.
  unfold same_transition. intros H.
  apply andb_true_iff in H as [H Hn]. apply andb_true_iff in H as [Hi Hp].
  apply String.eqb_eq in Hi, Hp, Hn. auto.
Qed.

Lemma create_keeps_unique (c : Changelog) (stored : list Changelog) :
  transitions_unique stored ->
  transitions_unique (snd (changelogModel_create c stored)).
Proof.
  intros Huniq. unfold changelogModel_create, insert_one.
  destruct (validates c); [|exact Huniq].
  rewrite duplicate_in_schema.
  destruct (existsb (transition_of c) stored) eqn:Hdup; [exact Huniq|].
  intros id prev next. cbn [snd]. rewrite transition_count_app.
  unfold transition_count at 2. cbn [filter].
  destruct (same_transition id prev next c) eqn:Hc; cbn [List.length].
  - destruct (same_transition_eq _ _ _ _ Hc) as (-> & -> & ->).
    unfold transition_of in Hdup.
    rewrite (transition_count_absent _ _ _ _ Hdup). lia.
  - specialize (Huniq id prev next). lia.
Qed.

Lemma deleteMany_keeps_unique (id : ObjectId) (stored : list Changelog) :
  transitions_unique stored ->
  transitions_unique (deleteMany (fun c => (apiId c =? id)%string) stored).
Proof.
  intros Huniq i prev next. specialize (Huniq i prev next).
  unfold transition_count, deleteMany in *.
  enough (List.length
            (filter (same_transition i prev next)
               (filter (fun d => negb (apiId d =? id)%string) stored))
          <= List.length (filter (same_transition i prev next) stored))%nat
    by lia.
  clear Huniq. induction stored as [|d rest IH]; [reflexivity|].
  cbn [filter].
  destruct (negb (apiId d =? id)%string); cbn [filter];
    destruct (same_transition i prev next d); cbn [List.length]; lia.
Qed.

Lemma changelog_steps_keep_unique (ops : list ChangelogOp) :
  forall stored,
    transitions_unique stored ->
    transitions_unique (fold_left changelog_step ops stored).
Proof.
  induction ops as [|op ops IH]; intros stored Huniq; [exact Huniq|].
  cbn [fold_left]. apply IH. destruct op as [c|id]; cbn [changelog_step].
  - now apply create_keeps_unique.
  - now apply deleteMany_keeps_unique.
Qed.

Lemma changelog_run_unique (ops : list ChangelogOp) :
  transitions_unique (changelog_run ops).
Proof.
  apply changelog_steps_keep_unique. intros id prev next. cbn. lia.
Qed.

Lemma create_stores_transition (c : Changelog) (stored : list Changelog) :
  validates c = true ->
  existsb (transition_of c) (snd (changelogModel_create c stored)) = true.
Proof.
  intros Hvalid. unfold changelogModel_create, insert_one.
  rewrite Hvalid, duplicate_in_schema.
  destruct (existsb (transition_of c) stored) eqn:Hdup; cbn [snd];
    [exact Hdup|].
  rewrite existsb_app. cbn [existsb].
  assert (Hc : transition_of c c = true).
  { unfold transition_of, same_transition. now rewrite !String.eqb_refl. }
  rewrite Hc. now rewrite orb_true_r.
Qed.

Lemma create_duplicate_refused (c : Changelog) (stored : list Changelog) :
  existsb (transition_of c) stored = true ->
  exists e, changelogModel_create c stored = (inl e, stored).
Proof.
  intros Hdup. unfold changelogModel_create, insert_one.
  destruct (validates c); [|eexists; reflexivity].
  rewrite duplicate_in_schema, Hdup. eexists. reflexivity.
Qed.

(** C5: the unique index on (apiId, previousVersion, newVersion) is declared
    in the schema; whatever creates and cascade deletes the changelog
    collection has seen, it holds at most one entry per transition; and
    creating two entries with the same transition one after the other leaves
    exactly one stored entry with it, the second create being refused by
    the store. *)
Theorem changelog_transition_unique
    (ops : list ChangelogOp) (c1 c2 : Changelog) :
  validates c1 = true ->
  apiId c2 = apiId c1 ->
  previousVersion c2 = previousVersion c1 ->
  newVersion c2 = newVersion c1 ->
  let after_first := changelog_run (ops ++ [Create c1]) in
  let after_second := changelog_run (ops ++ [Create c1; Create c2]) in
  In transition_index ChangelogSchema_indexes
  /\ unique transition_index = true
  /\ (forall history, transitions_unique (changelog_run history))
  /\ transition_count (apiId c1) (previousVersion c1) (newVersion c1)
       after_second = 1%nat
  /\ (exists e, changelogModel_create c2 after_first = (inl e, after_first))
  /\ after_second = after_first.
Proof.
  intros Hv1 Hid Hprev Hnext after_first after_second.
  assert (Hstored : existsb (transition_of c2) after_first = true).
  { unfold transition_of. rewrite Hid, Hprev, Hnext.
    unfold after_first, changelog_run. rewrite fold_left_app.
    cbn [fold_left changelog_step]. now apply create_stores_transition. }
  destruct (create_duplicate_refused c2 after_first Hstored) as [e He].
  assert (Hsame : after_second = after_first).
  { unfold after_second, after_first, changelog_run.
    rewrite !fold_left_app. cbn [fold_left changelog_step].
    unfold after_first, changelog_run in He. rewrite fold_left_app in He.
    cbn [fold_left changelog_step] in He. now rewrite He. }
  split; [cbn; tauto|]. split; [reflexivity|].
  split; [exact changelog_run_unique|].
  split; [|split; [exists e; exact He|exact Hsame]].
  rewrite Hsame. apply Nat.le_antisymm.
  - apply changelog_run_unique.
  - apply transition_count_present.
    unfold transition_of in Hstored. now rewrite Hid, Hprev, Hnext in Hstored.
Qed.

(** ** Facts about the target collection *)

Lemma set_field_id (a : Api) (f : ApiField) : _id (set_field a f) = _id a.
Proof. destruct f; reflexivity. Qed.

Lemma apply_update_id (upd : list ApiField) :
  forall a, _id (apply_update upd a) = _id a.
Proof.
  unfold apply_update. induction upd as [|f upd IH]; intros a; [reflexivity|].
  cbn [fold_left]. rewrite IH. apply set_field_id.
Qed.

Lemma findById_update_same (id : ObjectId) (upd : list ApiField)
    (l : list Api) :
  findById id (findByIdAndUpdate id upd l)
  = option_map (apply_update upd) (findById id l).
Proof.
  unfold findById, findByIdAndUpdate.
  induction l as [|a rest IH]; [reflexivity|].
  cbn [map find]. destruct (_id a =? id)%string eqn:Ha.
  - rewrite apply_update_id, Ha. reflexivity.
  - rewrite Ha. exact IH.
Qed.

Lemma findById_update_other (id id' : ObjectId) (upd : list ApiField)
    (l : list Api) :
  id' <> id ->
  findById id' (findByIdAndUpdate id upd l) = findById id' l.
Proof.
  intros Hne. unfold findById, findByIdAndUpdate.
  induction l as [|a rest IH]; [reflexivity|].
  cbn [map find]. destruct (_id a =? id)%string eqn:Ha.
  - apply String.eqb_eq in Ha.
    rewrite apply_update_id.
    assert (Hn : (_id a =? id')%string = false)
      by (apply String.eqb_neq; congruence).
    rewrite Hn. exact IH.
  - destruct (_id a =? id')%string; [reflexivity|exact IH].
Qed.

Lemma others_update (id : ObjectId) (upd : list ApiField) (l : list Api) :
  others id (findByIdAndUpdate id upd l) = others id l.
Proof.
  unfold others, findByIdAndUpdate.
  induction l as [|a rest IH]; [reflexivity|].
  cbn [map filter]. destruct (_id a =? id)%string eqn:Ha.
  - rewrite apply_update_id, Ha. exact IH.
  - rewrite Ha. cbn [negb]. now rewrite IH.
Qed.

Lemma or_default_falsy (v : option string) (d : string) :
  truthy v = false -> or_default v d = d.
Proof.
  unfold truthy, or_default. destruct v as [s|]; [|reflexivity].
  destruct (s =? "")%string; [reflexivity|discriminate].
Qed.

Ltac run_async :=
  unfold bind, try_catch, db_write, db_read, db, ret, throw, logger, lift,
    axios_get_data.

(** ** Scheduled checks *)

Section CheckProperties.

Variable env : Env.
Context {changeDetectorService : ChangeDetectorService}.
Variable stringify_length : OpenAPISpec -> Z.

Local Abbreviation check := (checkApiForChanges env stringify_length).

(** A missing or inactive target: nothing is done. *)
Lemma check_run_skipped (w : World) (id : ObjectId) :
  db_fault env 132 = None ->
  match findById id (apis w) with
  | Some api => isActive api = false
  | None => True
  end ->
  check id w = (inr no_changes, w).
Proof.
  intros Hfind Hskip. unfold checkApiForChanges. run_async. rewrite Hfind.
  destruct (findById id (apis w)) as [api|]; [|reflexivity].
  rewrite Hskip. reflexivity.
Qed.

(** The fetch is rejected. *)
Lemma check_run_fetch_rejected
    (w : World) (id : ObjectId) (api : Api) (e : JsError) :
  db_fault env 132 = None ->
  findById id (apis w) = Some api ->
  isActive api = true ->
  db_fault env 141 = None ->
  axios_get env (openApiUrl api) = inl e ->
  db_fault env 198 = None ->
  exists w',
    check id w = (inr no_changes, w')
    /\ findById id (apis w') = Some (after_error env api (message e) false)
    /\ others id (apis w') = others id (apis w)
    /\ snapshots w' = snapshots w
    /\ changelogs w' = changelogs w
    /\ requests w' = requests w ++ [openApiUrl api].
Proof.
  intros Hfind Hapi Hactive Hmark Hfetch Herr.
  unfold checkApiForChanges. run_async.
  rewrite Hfind, Hapi, Hactive, Hmark. cbn [negb apis requests].
  rewrite Hfetch, Herr.
  eexists. split; [reflexivity|].
  cbn [apis snapshots changelogs requests with_apis].
  rewrite !findById_update_same, Hapi, !others_update.
  repeat split; reflexivity.
Qed.

(** The fetch is rejected and the store refuses the handler's own update:
    the rejection of line 198 leaves the handler. *)
Lemma check_run_handler_refused
    (w : World) (id : ObjectId) (api : Api) (e e' : JsError) :
  db_fault env 132 = None ->
  findById id (apis w) = Some api ->
  isActive api = true ->
  db_fault env 141 = None ->
  axios_get env (openApiUrl api) = inl e ->
  db_fault env 198 = Some e' ->
  exists w',
    check id w = (inl e', w')
    /\ findById id (apis w')
       = Some (apply_update
                 [ Set_healthStatus checking;
                   Set_lastHealthCheck (newDate env 143) ] api)
    /\ others id (apis w') = others id (apis w)
    /\ snapshots w' = snapshots w
    /\ changelogs w' = changelogs w.
Proof.
  intros Hfind Hapi Hactive Hmark Hfetch Herr.
  unfold checkApiForChanges. run_async.
  rewrite Hfind, Hapi, Hactive, Hmark. cbn [negb apis requests].
  rewrite Hfetch, Herr.
  eexists. split; [reflexivity|].
  cbn [apis snapshots changelogs requests with_apis].
  rewrite !findById_update_same, Hapi, !others_update.
  repeat split; reflexivity.
Qed.

(** The fetch resolves and the detector rejects; the handler's own update is
    accepted. *)
Lemma check_run_detector_rejected
    (w : World) (id : ObjectId) (api : Api) (newSpec : OpenAPISpec)
    (e : JsError) :
  db_fault env 132 = None ->
  findById id (apis w) = Some api ->
  isActive api = true ->
  db_fault env 141 = None ->
  axios_get env (openApiUrl api) = inr newSpec ->
  detectChanges (latestSpec api) newSpec id = inl e ->
  db_fault env 198 = None ->
  exists w',
    check id w = (inr no_changes, w')
    /\ findById id (apis w') = Some (after_error env api (message e) false)
    /\ others id (apis w') = others id (apis w)
    /\ snapshots w' = snapshots w
    /\ changelogs w' = changelogs w.
Proof.
  intros Hfind Hapi Hactive Hmark Hfetch Hdetect Herr.
  unfold checkApiForChanges. run_async.
  rewrite Hfind, Hapi, Hactive, Hmark. cbn [negb apis requests].
  rewrite Hfetch, Hdetect, Herr.
  eexists. split; [reflexivity|].
  cbn [apis snapshots changelogs requests with_apis].
  rewrite !findById_update_same, Hapi, !others_update.
  repeat split; reflexivity.
Qed.

(** The fetch resolves, the detector reports changes and the three target
    updates are accepted; the snapshot write may be refused. *)
Lemma check_run_change
    (w : World) (id : ObjectId) (api : Api) (newSpec : OpenAPISpec)
    (r : ChangeDetector.Result) :
  db_fault env 132 = None ->
  findById id (apis w) = Some api ->
  isActive api = true ->
  db_fault env 141 = None ->
  axios_get env (openApiUrl api) = inr newSpec ->
  detectChanges (latestSpec api) newSpec id = inr r ->
  ChangeDetector.hasChanges r = true ->
  db_fault env 162 = None ->
  db_fault env 171 = None ->
  exists w',
    check id w
    = (inr {| CheckResult.hasChanges := true;
              CheckResult.changes := Some (ChangeDetector.changes r);
              CheckResult.newVersion := spec_version newSpec |}, w')
    /\ findById id (apis w') = Some (after_change env api newSpec)
    /\ others id (apis w') = others id (apis w)
    /\ changelogs w' = changelogs w
    /\ requests w' = requests w ++ [openApiUrl api]
    /\ match db_fault env 210 with
       | None =>
           exists snap,
             snapshots w' = snapshots w ++ [snap]
             /\ snap_apiId snap = id
             /\ snap_spec snap = newSpec
             /\ snap_version snap
                = or_default (spec_version newSpec) "unknown"
       | Some e =>
           snapshots w' = snapshots w
           /\ In ("Failed to create snapshot: " ++ message e)%string (logs w')
       end.
Proof.
  intros Hfind Hapi Hactive Hmark Hfetch Hdetect Hchanges Hhealthy Hstore.
  unfold checkApiForChanges, createSnapshot. run_async.
  rewrite Hfind, Hapi, Hactive, Hmark. cbn [negb apis requests].
  rewrite Hfetch, Hdetect, Hhealthy, Hchanges, Hstore.
  destruct (db_fault env 210) as [e|].
  - eexists. split; [reflexivity|].
    cbn [apis snapshots changelogs requests logs with_apis].
    rewrite !findById_update_same, Hapi, !others_update.
    repeat split; try reflexivity.
    apply in_or_app. left. apply in_or_app. right. now left.
  - eexists. split; [reflexivity|].
    cbn [apis snapshots changelogs requests logs with_apis with_snapshots].
    rewrite !findById_update_same, Hapi, !others_update.
    repeat split; try reflexivity.
    eexists. repeat split; reflexivity.
Qed.
(** The fetch resolves, the detector reports no change and both target
    updates are accepted. *)
Lemma check_run_no_change
    (w : World) (id : ObjectId) (api : Api) (newSpec : OpenAPISpec)
    (r : ChangeDetector.Result) :
  db_fault env 132 = None ->
  findById id (apis w) = Some api ->
  isActive api = true ->
  db_fault env 141 = None ->
  axios_get env (openApiUrl api) = inr newSpec ->
  detectChanges (latestSpec api) newSpec id = inr r ->
  ChangeDetector.hasChanges r = false ->
  db_fault env 162 = None ->
  db_fault env 189 = None ->
  exists w' api',
    check id w = (inr no_changes, w')
    /\ findById id (apis w') = Some api'
    /\ healthStatus api' = healthy
    /\ lastError api' = None
    /\ latestSpec api' = latestSpec api
    /\ version api' = version api
    /\ changeCount api' = changeCount api
    /\ snapshots w' = snapshots w
    /\ changelogs w' = changelogs w.
Proof.
  intros Hfind Hapi Hactive Hmark Hfetch Hdetect Hchanges Hhealthy Htouch.
  unfold checkApiForChanges. run_async.
  rewrite Hfind, Hapi, Hactive, Hmark. cbn [negb apis requests].
  rewrite Hfetch, Hdetect, Hhealthy, Hchanges, Htouch.
  eexists. eexists. split; [reflexivity|].
  cbn [apis snapshots changelogs with_apis].
  rewrite !findById_update_same, Hapi.
  repeat split; reflexivity.
Qed.

(** The fetch resolves and the detector answers, then a target update is
    refused; the handler's own update is accepted. *)
Lemma check_run_update_refused
    (w : World) (id : ObjectId) (api : Api) (newSpec : OpenAPISpec)
    (r : ChangeDetector.Result) (e : JsError) (reached162 : bool) :
  db_fault env 132 = None ->
  findById id (apis w) = Some api ->
  isActive api = true ->
  db_fault env 141 = None ->
  axios_get env (openApiUrl api) = inr newSpec ->
  detectChanges (latestSpec api) newSpec id = inr r ->
  update_refused env r e reached162 ->
  db_fault env 198 = None ->
  exists w',
    check id w = (inr no_changes, w')
    /\ findById id (apis w') = Some (after_error env api (message e) reached162)
    /\ others id (apis w') = others id (apis w)
    /\ snapshots w' = snapshots w
    /\ changelogs w' = changelogs w.
Proof.
  intros Hfind Hapi Hactive Hmark Hfetch Hdetect Hrefused Herr.
  unfold checkApiForChanges. run_async.
  rewrite Hfind, Hapi, Hactive, Hmark. cbn [negb apis requests].
  rewrite Hfetch, Hdetect. unfold update_refused in Hrefused.
  destruct reached162.
  - destruct Hrefused as [H162 Hnext]. rewrite H162.
    destruct (ChangeDetector.hasChanges r); rewrite Hnext, Herr;
      (eexists; split; [reflexivity|]);
      cbn [apis snapshots changelogs with_apis];
      rewrite !findById_update_same, Hapi, !others_update;
      repeat split; reflexivity.
  - rewrite Hrefused, Herr. eexists. split; [reflexivity|].
    cbn [apis snapshots changelogs with_apis].
    rewrite !findById_update_same, Hapi, !others_update.
    repeat split; reflexivity.
Qed.

(** Once the target is marked as being checked, the GET goes out, whatever
    comes after. *)
Lemma check_run_requests (w : World) (id : ObjectId) (api : Api) :
  db_fault env 132 = None ->
  findById id (apis w) = Some api ->
  isActive api = true ->
  db_fault env 141 = None ->
  requests (snd (check id w)) = requests w ++ [openApiUrl api].
Proof.
  intros Hfind Hapi Hactive Hmark.
  unfold checkApiForChanges, createSnapshot. run_async.
  rewrite Hfind, Hapi, Hactive, Hmark. cbn [negb apis requests].
  destruct (axios_get env (openApiUrl api)) as [e|newSpec].
  - destruct (db_fault env 198); reflexivity.
  - destruct (detectChanges (latestSpec api) newSpec id) as [e|r].
    + destruct (db_fault env 198); reflexivity.
    + destruct (db_fault env 162).
      * destruct (db_fault env 198); reflexivity.
      * destruct (ChangeDetector.hasChanges r).
        -- destruct (db_fault env 171).
           ++ destruct (db_fault env 198); reflexivity.
           ++ destruct (db_fault env 210); reflexivity.
        -- destruct (db_fault env 189).
           ++ destruct (db_fault env 198); reflexivity.
           ++ reflexivity.
Qed.

(** C1 (amended): a check of an active target whose fetch resolves, whose
    detector reports changes and whose writes the store accepts resolves with
    [hasChanges = true]; the stored specification becomes the fetched
    document; the stored version becomes the fetched [info.version] when that
    is present and not empty and stays as it was otherwise; [changeCount] is
    the value read at the start of the check plus one; exactly one snapshot
    is appended; and the check writes nothing to the changelog collection. *)
Theorem check_detected_change
    (w : World) (id : ObjectId) (api : Api) (newSpec : OpenAPISpec)
    (r : ChangeDetector.Result) :
  db_fault env 132 = None ->
  findById id (apis w) = Some api ->
  isActive api = true ->
  db_fault env 141 = None ->
  axios_get env (openApiUrl api) = inr newSpec ->
  detectChanges (latestSpec api) newSpec id = inr r ->
  ChangeDetector.hasChanges r = true ->
  db_fault env 162 = None ->
  db_fault env 171 = None ->
  db_fault env 210 = None ->
  exists w' api' snap,
    check id w
    = (inr {| CheckResult.hasChanges := true;
              CheckResult.changes := Some (ChangeDetector.changes r);
              CheckResult.newVersion := spec_version newSpec |}, w')
    /\ findById id (apis w') = Some api'
    /\ latestSpec api' = newSpec
    /\ (forall v, spec_version newSpec = Some v -> v <> ""%string ->
        version api' = v)
    /\ (truthy (spec_version newSpec) = false -> version api' = version api)
    /\ changeCount api' = changeCount api + 1
    /\ healthStatus api' = healthy
    /\ snapshots w' = snapshots w ++ [snap]
    /\ snap_apiId snap = id
    /\ snap_spec snap = newSpec
    /\ changelogs w' = changelogs w.
Proof.
  intros Hfind Hapi Hactive Hmark Hfetch Hdetect Hchanges Hhealthy Hstore Hsnap.
  destruct (check_run_change w id api newSpec r Hfind Hapi Hactive Hmark
              Hfetch Hdetect Hchanges Hhealthy Hstore)
    as (w' & Hrun & Hget & _ & Hlog & _ & Hsnaps).
  rewrite Hsnap in Hsnaps. destruct Hsnaps as (snap & Hs & Hsid & Hsspec & _).
  exists w', (after_change env api newSpec), snap.
  repeat split; try assumption; try reflexivity.
  - intros v Hv Hne. cbn. rewrite Hv. unfold or_default.
    apply String.eqb_neq in Hne. now rewrite Hne.
  - intros Hfalsy. cbn. now apply or_default_falsy.
Qed.

(** C2 (amended): when the fetch of an active target's URL is rejected, the
    check writes no snapshot and no changelog entry and leaves the target's
    [lastChecked] and the documents of all other targets as they were.  When
    the store accepts the handler's update of the target, the check resolves
    to the result without changes (the value a check that finds nothing new
    resolves to) and the target ends with health [error] and the error's
    message.  When the store refuses that update, the check rejects with the
    store's error and the target stays in [checking] with the [lastError] it
    had. *)
Theorem check_fetch_failure
    (w : World) (id : ObjectId) (api : Api) (e : JsError) :
  db_fault env 132 = None ->
  findById id (apis w) = Some api ->
  isActive api = true ->
  db_fault env 141 = None ->
  axios_get env (openApiUrl api) = inl e ->
  (db_fault env 198 = None ->
   exists w' api',
     check id w = (inr no_changes, w')
     /\ CheckResult.hasChanges no_changes = false
     /\ findById id (apis w') = Some api'
     /\ healthStatus api' = error
     /\ lastError api' = Some (message e)
     /\ lastChecked api' = lastChecked api
     /\ snapshots w' = snapshots w
     /\ changelogs w' = changelogs w
     /\ others id (apis w') = others id (apis w))
  /\ (forall e',
        db_fault env 198 = Some e' ->
        exists w' api',
          check id w = (inl e', w')
          /\ findById id (apis w') = Some api'
          /\ healthStatus api' = checking
          /\ lastError api' = lastError api
          /\ lastChecked api' = lastChecked api
          /\ snapshots w' = snapshots w
          /\ changelogs w' = changelogs w
          /\ others id (apis w') = others id (apis w)).
Proof.
  intros Hfind Hapi Hactive Hmark Hfetch. split.
  - intros Herr.
    destruct (check_run_fetch_rejected w id api e Hfind Hapi Hactive Hmark
                Hfetch Herr)
      as (w' & Hrun & Hget & Hothers & Hsnaps & Hlog & _).
    exists w', (after_error env api (message e) false).
    repeat split; assumption || reflexivity.
  - intros e' Herr.
    destruct (check_run_handler_refused w id api e e' Hfind Hapi Hactive
                Hmark Hfetch Herr)
      as (w' & Hrun & Hget & Hothers & Hsnaps & Hlog).
    exists w', (apply_update
                  [ Set_healthStatus checking;
                    Set_lastHealthCheck (newDate env 143) ] api).
    repeat split; assumption || reflexivity.
Qed.

(** C3 (amended): a check triggered for a target whose health is already
    [checking] is skipped only when the target is inactive.  For an active
    one it goes ahead as for any other health: once the store accepts the
    status update the GET is issued, and with a resolved fetch, detected
    changes and accepted writes the target is rewritten and a snapshot
    appended. *)
Theorem check_while_checking (w : World) (id : ObjectId) (api : Api) :
  db_fault env 132 = None ->
  findById id (apis w) = Some api ->
  healthStatus api = checking ->
  (isActive api = false -> check id w = (inr no_changes, w))
  /\ (isActive api = true ->
      db_fault env 141 = None ->
      requests (snd (check id w)) = requests w ++ [openApiUrl api]
      /\ forall newSpec r,
           axios_get env (openApiUrl api) = inr newSpec ->
           detectChanges (latestSpec api) newSpec id = inr r ->
           ChangeDetector.hasChanges r = true ->
           db_fault env 162 = None ->
           db_fault env 171 = None ->
           db_fault env 210 = None ->
           exists snap,
             snapshots (snd (check id w)) = snapshots w ++ [snap]
             /\ findById id (apis (snd (check id w)))
                = Some (after_change env api newSpec)).
Proof.
  intros Hfind Hapi Hchecking. split.
  - intros Hinactive. apply check_run_skipped; [assumption|].
    now rewrite Hapi.
  - intros Hactive Hmark. split.
    + now apply check_run_requests.
    + intros newSpec r Hfetch Hdetect Hchanges Hhealthy Hstore Hsnap.
      destruct (check_run_change w id api newSpec r Hfind Hapi Hactive Hmark
                  Hfetch Hdetect Hchanges Hhealthy Hstore)
        as (w' & Hrun & Hget & _ & _ & _ & Hsnaps).
      rewrite Hsnap in Hsnaps. destruct Hsnaps as (snap & Hs & _).
      rewrite Hrun. exists snap. split; assumption.
Qed.

(** C7 (amended): in a check whose fetch resolved, (a) when a target update
    of line 162, 171 or 189 is refused and the handler's own update is
    accepted, the check resolves without changes, the target ends with
    health [error] and the refusal's message, and the other targets'
    documents are as before; (b) when instead the snapshot write is refused,
    [createSnapshot] logs it and the check resolves with [hasChanges = true],
    the target ends with health [healthy] and no recorded error, and no
    snapshot is stored.  No changelog write belongs to either path. *)
Theorem check_persistence_failure
    (w : World) (id : ObjectId) (api : Api) (newSpec : OpenAPISpec)
    (r : ChangeDetector.Result) :
  db_fault env 132 = None ->
  findById id (apis w) = Some api ->
  isActive api = true ->
  db_fault env 141 = None ->
  axios_get env (openApiUrl api) = inr newSpec ->
  detectChanges (latestSpec api) newSpec id = inr r ->
  (forall e reached162,
      update_refused env r e reached162 ->
      db_fault env 198 = None ->
      exists w' api',
        check id w = (inr no_changes, w')
        /\ findById id (apis w') = Some api'
        /\ healthStatus api' = error
        /\ lastError api' = Some (message e)
        /\ others id (apis w') = others id (apis w)
        /\ changelogs w' = changelogs w)
  /\ (forall e,
        ChangeDetector.hasChanges r = true ->
        db_fault env 162 = None ->
        db_fault env 171 = None ->
        db_fault env 210 = Some e ->
        exists w' api' res,
          check id w = (inr res, w')
          /\ CheckResult.hasChanges res = true
          /\ findById id (apis w') = Some api'
          /\ healthStatus api' = healthy
          /\ lastError api' = None
          /\ snapshots w' = snapshots w
          /\ In ("Failed to create snapshot: " ++ message e)%string (logs w')
          /\ others id (apis w') = others id (apis w)
          /\ changelogs w' = changelogs w).
Proof.
  intros Hfind Hapi Hactive Hmark Hfetch Hdetect. split.
  - intros e reached162 Hrefused Herr.
    destruct (check_run_update_refused w id api newSpec r e reached162
                Hfind Hapi Hactive Hmark Hfetch Hdetect Hrefused Herr)
      as (w' & Hrun & Hget & Hothers & _ & Hlog).
    exists w', (after_error env api (message e) reached162).
    repeat split; try assumption; destruct reached162; reflexivity.
  - intros e Hchanges Hhealthy Hstore Hsnap.
    destruct (check_run_change w id api newSpec r Hfind Hapi Hactive Hmark
                Hfetch Hdetect Hchanges Hhealthy Hstore)
      as (w' & Hrun & Hget & Hothers & Hlog & _ & Hsnaps).
    rewrite Hsnap in Hsnaps. destruct Hsnaps as [Hs Hlogged].
    eexists w', (after_change env api newSpec), _.
    repeat split; try eassumption; reflexivity.
Qed.

(** C8 (amended): the check makes no test of [info.version]; what it does
    with a fetched document that has none is decided by the detector's
    answer.  When the detector answers and the store accepts the writes, the
    check is not a failure: it resolves, the target ends with health
    [healthy] and no recorded error, and its stored version is kept; if
    changes are reported the stored specification is replaced by that
    document, [changeCount] grows by one and a snapshot labelled ["unknown"]
    is appended, and if none are reported the stored specification stays and
    no snapshot is written.  When the detector rejects, the check is a
    failure of that target alone: it resolves without changes, the target
    ends with health [error] and the rejection's message, and its stored
    specification, version and [changeCount] are as before, with no snapshot
    written. *)
Theorem check_missing_version
    (w : World) (id : ObjectId) (api : Api) (newSpec : OpenAPISpec) :
  db_fault env 132 = None ->
  findById id (apis w) = Some api ->
  isActive api = true ->
  db_fault env 141 = None ->
  axios_get env (openApiUrl api) = inr newSpec ->
  truthy (spec_version newSpec) = false ->
  (forall r,
      detectChanges (latestSpec api) newSpec id = inr r ->
      db_fault env 162 = None ->
      db_fault env (if ChangeDetector.hasChanges r then 171 else 189)%nat
      = None ->
      db_fault env 210 = None ->
      exists w' api' res,
        check id w = (inr res, w')
        /\ CheckResult.hasChanges res = ChangeDetector.hasChanges r
        /\ findById id (apis w') = Some api'
        /\ healthStatus api' = healthy
        /\ lastError api' = None
        /\ version api' = version api
        /\ if ChangeDetector.hasChanges r
           then latestSpec api' = newSpec
                /\ changeCount api' = changeCount api + 1
                /\ exists snap,
                     snapshots w' = snapshots w ++ [snap]
                     /\ snap_spec snap = newSpec
                     /\ snap_version snap = "unknown"%string
           else latestSpec api' = latestSpec api
                /\ changeCount api' = changeCount api
                /\ snapshots w' = snapshots w)
  /\ (forall e,
        detectChanges (latestSpec api) newSpec id = inl e ->
        db_fault env 198 = None ->
        exists w' api',
          check id w = (inr no_changes, w')
          /\ findById id (apis w') = Some api'
          /\ healthStatus api' = error
          /\ lastError api' = Some (message e)
          /\ latestSpec api' = latestSpec api
          /\ version api' = version api
          /\ changeCount api' = changeCount api
          /\ snapshots w' = snapshots w
          /\ changelogs w' = changelogs w).
Proof.
  intros Hfind Hapi Hactive Hmark Hfetch Hversion. split.
  - intros r Hdetect Hhealthy Hnext Hsnap.
    destruct (ChangeDetector.hasChanges r) eqn:Hchanges.
    + destruct (check_run_change w id api newSpec r Hfind Hapi Hactive Hmark
                  Hfetch Hdetect Hchanges Hhealthy Hnext)
        as (w' & Hrun & Hget & _ & _ & _ & Hsnaps).
      rewrite Hsnap in Hsnaps.
      destruct Hsnaps as (snap & Hs & _ & Hsspec & Hsversion).
      rewrite (or_default_falsy _ _ Hversion) in Hsversion.
      eexists w', (after_change env api newSpec), _.
      repeat split; try eassumption; try reflexivity.
      * cbn. now apply or_default_falsy.
      * exists snap. repeat split; assumption.
    + destruct (check_run_no_change w id api newSpec r Hfind Hapi Hactive
                  Hmark Hfetch Hdetect Hchanges Hhealthy Hnext)
        as (w' & api' & Hrun & Hget & Hh & He & Hspec & Hv & Hc & Hs & _).
      exists w', api', no_changes.
      repeat split; assumption || reflexivity.
  - intros e Hdetect Herr.
    destruct (check_run_detector_rejected w id api newSpec e Hfind Hapi
                Hactive Hmark Hfetch Hdetect Herr)
      as (w' & Hrun & Hget & _ & Hsnaps & Hlog).
    exists w', (after_error env api (message e) false).
    repeat split; assumption || reflexivity.
Qed.

End CheckProperties.

(** ** Registration *)

Section RegisterProperties.

Variable env : Env.
Variable stringify_length : OpenAPISpec -> Z.

Local Abbreviation register := (registerApi env stringify_length).

(** Every way through the [catch] block rejects, and writes only to the
    log. *)
Lemma registerApi_catch_rejects (err : JsError) (w : World) :
  exists e',
    registerApi_catch err w
    = (inl e',
       {| apis := apis w; snapshots := snapshots w;
          changelogs := changelogs w; requests := requests w;
          logs := logs w ++ ["Failed to register API: " ++ message err]%string |}).
Proof.
  unfold registerApi_catch. run_async.
  destruct (match code err with
            | Some c => (c =? "ENOTFOUND")%string || (c =? "ECONNREFUSED")%string
            | None => false
            end); [eexists; reflexivity|].
  destruct (response err) as [[status statusText]|]; [|eexists; reflexivity].
  destruct (400 <=? status); eexists; reflexivity.
Qed.

Lemma registerApi_try_failure
    (dto : CreateApiDto.t) (user : ObjectId) (w : World) :
  registration_fails env dto ->
  exists e w',
    registerApi_try env stringify_length dto user w = (inl e, w')
    /\ apis w' = apis w
    /\ snapshots w' = snapshots w
    /\ changelogs w' = changelogs w
    /\ requests w' = requests w ++ [CreateApiDto.openApiUrl dto].
Proof.
  unfold registration_fails, registerApi_try. intros Hfails.
  unfold bind at 1. unfold axios_get_data.
  destruct (axios_get env (CreateApiDto.openApiUrl dto)) as [e|spec].
  - eexists. eexists. split; [reflexivity|]. repeat split.
  - unfold truthy in Hfails. destruct (spec_version spec) as [v|].
    + destruct (v =? "")%string.
      * eexists. eexists. split; [reflexivity|]. repeat split.
      * destruct Hfails as [Hf|Hf]; [discriminate|].
        unfold bind, db. destruct (db_fault env 102) as [e0|];
          [|contradiction].
        eexists. eexists. split; [reflexivity|]. repeat split.
    + eexists. eexists. split; [reflexivity|]. repeat split.
Qed.

Lemma registerApi_try_success
    (dto : CreateApiDto.t) (user : ObjectId) (w : World)
    (spec : OpenAPISpec) (v : string) :
  axios_get env (CreateApiDto.openApiUrl dto) = inr spec ->
  spec_version spec = Some v ->
  v <> ""%string ->
  db_fault env 102 = None ->
  exists w',
    registerApi_try env stringify_length dto user w
    = (inr (toResponseDto (new_Api env dto user spec v)), w')
    /\ apis w' = apis w ++ [new_Api env dto user spec v]
    /\ changelogs w' = changelogs w
    /\ requests w' = requests w ++ [CreateApiDto.openApiUrl dto]
    /\ match db_fault env 210 with
       | None =>
           exists snap,
             snapshots w' = snapshots w ++ [snap]
             /\ snap_apiId snap = fresh_id env
             /\ snap_spec snap = spec
             /\ snap_version snap = v
       | Some e =>
           snapshots w' = snapshots w
           /\ In ("Failed to create snapshot: " ++ message e)%string (logs w')
       end.
Proof.
  intros Hfetch Hversion Hne Hsave. apply String.eqb_neq in Hne.
  unfold registerApi_try, createSnapshot. run_async.
  rewrite Hfetch, Hversion, Hne, Hsave. cbn [_id].
  destruct (db_fault env 210) as [e|].
  - eexists. split; [reflexivity|].
    cbn [apis snapshots changelogs requests logs with_apis].
    repeat split. apply in_or_app. right. now left.
  - eexists. split; [reflexivity|].
    cbn [apis snapshots changelogs requests logs with_apis with_snapshots].
    repeat split. eexists. repeat split.
    cbn [snap_version]. unfold or_default. now rewrite Hne.
Qed.

(** C6 (amended): registration issues the GET exactly once.  If the fetch is
    rejected, the document has no usable [info.version] or the store refuses
    the new target, registration rejects and no target and no snapshot is
    created.  Otherwise it resolves and the target is stored with health
    [healthy] and [changeCount] 0; the baseline snapshot is written when the
    store accepts it, and when the store refuses it the refusal is logged and
    registration resolves all the same, leaving the target without a
    snapshot. *)
Theorem register_api
    (dto : CreateApiDto.t) (user : ObjectId) (w : World) :
  (registration_fails env dto ->
   exists e w',
     register dto user w = (inl e, w')
     /\ apis w' = apis w
     /\ snapshots w' = snapshots w
     /\ requests w' = requests w ++ [CreateApiDto.openApiUrl dto])
  /\ (forall spec v,
        axios_get env (CreateApiDto.openApiUrl dto) = inr spec ->
        spec_version spec = Some v ->
        v <> ""%string ->
        db_fault env 102 = None ->
        exists dto' api w',
          register dto user w = (inr dto', w')
          /\ apis w' = apis w ++ [api]
          /\ _id api = fresh_id env
          /\ ApiResponseDto.id dto' = fresh_id env
          /\ healthStatus api = healthy
          /\ changeCount api = 0
          /\ version api = v
          /\ latestSpec api = spec
          /\ requests w' = requests w ++ [CreateApiDto.openApiUrl dto]
          /\ match db_fault env 210 with
             | None =>
                 exists snap,
                   snapshots w' = snapshots w ++ [snap]
                   /\ snap_apiId snap = fresh_id env
                   /\ snap_spec snap = spec
             | Some e =>
                 snapshots w' = snapshots w
                 /\ In ("Failed to create snapshot: " ++ message e)%string
                      (logs w')
             end).
Proof.
  split.
  - intros Hfails. unfold registerApi, try_catch.
    destruct (registerApi_try_failure dto user w Hfails)
      as (e & w0 & Htry & Ha & Hs & _ & Hr).
    rewrite Htry.
    destruct (registerApi_catch_rejects e w0) as [e' Hcatch].
    rewrite Hcatch. eexists. eexists. split; [reflexivity|].
    cbn [apis snapshots requests]. repeat split; assumption.
  - intros spec v Hfetch Hversion Hne Hsave. unfold registerApi, try_catch.
    destruct (registerApi_try_success dto user w spec v Hfetch Hversion Hne
                Hsave) as (w' & Htry & Ha & _ & Hr & Hsnap).
    rewrite Htry.
    exists (toResponseDto (new_Api env dto user spec v)),
      (new_Api env dto user spec v), w'.
    repeat split; try assumption.
    destruct (db_fault env 210) as [e|]; [exact Hsnap|].
    destruct Hsnap as (snap & Hs & Hid & Hspec & _).
    exists snap. repeat split; assumption.
Qed.

End RegisterProperties.

(** ** Deletion *)

Lemma findById_delete (id : ObjectId) (l : list Api) :
  NoDup (map _id l) ->
  findById id (findByIdAndDelete id l) = None.
Proof.
  unfold findById. induction l as [|a rest IH]; intros Hnodup; [reflexivity|].
  cbn [map] in Hnodup. inversion Hnodup as [|x xs Hnotin Hrest]; subst.
  cbn [findByIdAndDelete]. destruct (_id a =? id)%string eqn:Ha.
  - apply String.eqb_eq in Ha. subst id.
    destruct (find (fun b => (_id b =? _id a)%string) rest) as [b|] eqn:Hb;
      [|reflexivity].
    apply find_some in Hb as [Hin Heq]. apply String.eqb_eq in Heq.
    exfalso. apply Hnotin. rewrite <- Heq. now apply in_map.
  - cbn [find]. rewrite Ha. now apply IH.
Qed.

Lemma deleteMany_nothing {A} (l : list A) : deleteMany (fun _ => false) l = l.
Proof.
  unfold deleteMany. induction l as [|a rest IH]; [reflexivity|].
  cbn [filter negb]. now f_equal.
Qed.

(** The changelog delete of line 269 matches no stored entry. *)
Lemma changelog_delete_matches_nothing (id : ObjectId) (l : list Changelog) :
  deleteMany (fun c => matches_id ChangelogSchema_apiId_path (BsonString id)
                         (apiId c)) l
  = l.
Proof. exact (deleteMany_nothing l). Qed.

Section DeleteProperties.

Variable env : Env.
Variable snapshot_path : PathType.

(** What [deleteApi] does for the owner of an existing target when the store
    accepts the three deletes: the target goes, the changelog is left whole,
    and the target's snapshots go only under a snapshot schema that casts
    the filter. *)
Lemma deleteApi_accepted (w : World) (id user : ObjectId) (api : Api) :
  db_fault env 257 = None ->
  findById id (apis w) = Some api ->
  userId api = user ->
  db_fault env 267 = None ->
  db_fault env 268 = None ->
  db_fault env 269 = None ->
  deleteApi env snapshot_path id user w
  = (inr tt,
     {| apis := findByIdAndDelete id (apis w);
        snapshots :=
          match snapshot_path with
          | ObjectIdPath =>
              deleteMany (fun s => (id =? snap_apiId s)%string) (snapshots w)
          | MixedPath => snapshots w
          end;
        changelogs := changelogs w;
        requests := requests w;
        logs := logs w |}).
Proof.
  intros H257 Hfind Hown H267 H268 H269.
  unfold deleteApi, Promise_all. run_async.
  rewrite H257, Hfind, Hown, String.eqb_refl, H267, H268, H269.
  cbn [negb snd]. unfold with_changelogs, with_snapshots, with_apis.
  cbn [apis snapshots changelogs requests logs].
  rewrite changelog_delete_matches_nothing.
  destruct snapshot_path; [reflexivity|].
  do 2 f_equal. exact (deleteMany_nothing (snapshots w)).
Qed.

End DeleteProperties.

(** C9, at the failing input: the owner deletes the first of two targets,
    each with a snapshot and a changelog entry, and the store accepts the
    three deletes.  The call resolves and the target is gone, but its
    changelog entry is still stored, because the filter of line 269 holds
    the raw string while the entry holds an [ObjectId] on a path that casts
    nothing; under a snapshot schema typed the same way its snapshot stays
    too. *)
Theorem deleteApi_orphans_changelog :
  let run := fun p => deleteApi quiet_env p target_id owner_id two_targets in
  fst (run ObjectIdPath) = inr tt
  /\ findById target_id (apis (snd (run ObjectIdPath))) = None
  /\ snapshots (snd (run ObjectIdPath)) = [snapshot_of other_id]
  /\ changelogs (snd (run ObjectIdPath))
     = [entry_of target_id 2000; entry_of other_id 3000]
  /\ fst (run MixedPath) = inr tt
  /\ snapshots (snd (run MixedPath))
     = [snapshot_of target_id; snapshot_of other_id]
  /\ changelogs (snd (run MixedPath))
     = [entry_of target_id 2000; entry_of other_id 3000].
Proof. repeat split. Qed.

(** ** Statistics *)

Lemma fold_left_changeCount (l : list Api) :
  forall acc,
    fold_left (fun acc x => acc + changeCount x) l acc
    = acc + sum_changeCount l.
Proof.
  induction l as [|a rest IH]; intros acc; cbn [fold_left sum_changeCount].
  - lia.
  - rewrite IH. lia.
Qed.

Lemma filter_andb {A} (f g : A -> bool) (l : list A) :
  filter (fun a => f a && g a) l = filter g (filter f l).
Proof.
  induction l as [|a rest IH]; [reflexivity|].
  cbn [filter]. destruct (f a); cbn [andb filter].
  - destruct (g a); now rewrite IH.
  - exact IH.
Qed.

Section StatsProperties.

Variable env : Env.

(** C10: the statistics of a user count, over the targets that user owns
    only, all targets, the active, the healthy, the unhealthy-or-error ones
    and the sum of their change counters; [recentChanges] counts every
    changelog entry of the last seven days in the whole collection, whoever
    owns the target it belongs to, so it is the same number for every
    user. *)
Theorem getApiStats_scope (w : World) (user : ObjectId) :
  stats_reads_succeed env ->
  exists stats,
    getApiStats env user w = (inr stats, w)
    /\ ApiStatsDto.totalApis stats
       = Z.of_nat (List.length (owned_by user (apis w)))
    /\ ApiStatsDto.activeApis stats
       = Z.of_nat (List.length (filter isActive (owned_by user (apis w))))
    /\ ApiStatsDto.healthyApis stats
       = Z.of_nat (List.length
           (filter (fun a => HealthStatus_eqb (healthStatus a) healthy)
              (owned_by user (apis w))))
    /\ ApiStatsDto.unhealthyApis stats
       = Z.of_nat (List.length
           (filter (fun a => HealthStatus_eqb (healthStatus a) unhealthy
                             || HealthStatus_eqb (healthStatus a) error)
              (owned_by user (apis w))))
    /\ ApiStatsDto.totalChanges stats = sum_changeCount (owned_by user (apis w))
    /\ ApiStatsDto.recentChanges stats
       = Z.of_nat (List.length
           (since (minusDays env (newDate env 358) 7) (changelogs w)))
    /\ (forall other stats',
          getApiStats env other w = (inr stats', w) ->
          ApiStatsDto.recentChanges stats' = ApiStatsDto.recentChanges stats).
Proof.
  intros (H341 & H342 & H343 & H347 & H351 & H361).
  assert (Hrun : forall u,
    getApiStats env u w
    = (inr {| ApiStatsDto.totalApis :=
                countDocuments (fun a => (userId a =? u)%string) (apis w);
              ApiStatsDto.activeApis :=
                countDocuments
                  (fun a => (userId a =? u)%string && isActive a) (apis w);
              ApiStatsDto.healthyApis :=
                countDocuments
                  (fun a => (userId a =? u)%string
                            && HealthStatus_eqb (healthStatus a) healthy)
                  (apis w);
              ApiStatsDto.unhealthyApis :=
                countDocuments
                  (fun a => (userId a =? u)%string
                            && existsb (HealthStatus_eqb (healthStatus a))
                                 [unhealthy; error])
                  (apis w);
              ApiStatsDto.recentChanges :=
                countDocuments
                  (fun c => minusDays env (newDate env 358) 7 <=? timestamp c)
                  (changelogs w);
              ApiStatsDto.totalChanges :=
                match aggregate_sum (fun a => (userId a =? u)%string)
                        changeCount (apis w) with
                | total :: _ => total
                | [] => 0
                end |}, w)).
  { intros u. unfold getApiStats. run_async.
    rewrite H341, H342, H343, H347, H351, H361. reflexivity. }
  eexists. split; [apply Hrun|].
  cbn [ApiStatsDto.totalApis ApiStatsDto.activeApis ApiStatsDto.healthyApis
       ApiStatsDto.unhealthyApis ApiStatsDto.recentChanges
       ApiStatsDto.totalChanges].
  unfold countDocuments, owned_by, since. rewrite !filter_andb.
  repeat split.
  - f_equal. f_equal. apply filter_ext. intros a. cbn [existsb].
    now rewrite orb_false_r.
  - unfold aggregate_sum.
    destruct (filter (fun a => (userId a =? user)%string) (apis w))
      as [|d ds]; [reflexivity|].
    now rewrite fold_left_changeCount.
  - intros other stats' Hother. rewrite Hrun in Hother.
    injection Hother as <-. reflexivity.
Qed.

End StatsProperties.

(** ** The scenarios, run *)

(** C1, as stated, fails on the scenario of the specification: the target
    was registered with version 1.0.0 and no paths, the check fetches version
    1.0.0 with the new path [/users].  The detector reports the added path,
    [changeCount] goes from 0 to 1 and one snapshot is written, but the
    changelog collection is still empty: no entry 1.0.0 -> 1.0.0 was
    written. *)
Lemma check_scenario_no_changelog_entry :
  let run := scenario_check (inr spec_v1_users) no_faults
               (world_of [users_target]) in
  fst run
  = inr {| CheckResult.hasChanges := true;
           CheckResult.changes :=
             Some [path_change ChangeDetector.added false "/users"];
           CheckResult.newVersion := Some "1.0.0"%string |}
  /\ option_map changeCount (findById target_id (apis (snd run))) = Some 1
  /\ List.length (snapshots (snd run)) = 1%nat
  /\ changelogs (snd run) = [].
Proof. repeat split. Qed.

(** C1 (amended), on the scenario. *)
Lemma check_detected_change_witness :
  exists w' api' snap,
    scenario_check (inr spec_v1_users) no_faults (world_of [users_target])
    = (inr {| CheckResult.hasChanges := true;
              CheckResult.changes :=
                Some [path_change ChangeDetector.added false "/users"];
              CheckResult.newVersion := Some "1.0.0"%string |}, w')
    /\ findById target_id (apis w') = Some api'
    /\ latestSpec api' = spec_v1_users
    /\ version api' = "1.0.0"%string
    /\ changeCount api' = 1
    /\ snapshots w' = [snap]
    /\ changelogs w' = [].
Proof.
  destruct (@check_detected_change
              (scenario_env 5000 (inr spec_v1_users) no_faults) PathDetector
              unmeasured (world_of [users_target]) target_id users_target
              spec_v1_users
              {| ChangeDetector.hasChanges := true;
                 ChangeDetector.changes :=
                   [path_change ChangeDetector.added false "/users"] |}
              eq_refl eq_refl eq_refl eq_refl eq_refl eq_refl eq_refl eq_refl
              eq_refl eq_refl)
    as (w' & api' & snap & Hrun & Hget & Hspec & Hv & _ & Hcount & _ & Hs & _
        & _ & Hlog).
  exists w', api', snap. repeat split; try assumption.
  apply Hv; [reflexivity|discriminate].
Defined.

(** The fetched document declares the empty version and a new path: the
    stored version keeps its label and the snapshot is labelled
    ["unknown"]. *)
Lemma check_empty_version_keeps_label :
  let fetched :=
    {| info := Some {| info_version := Some ""%string |};
       paths := Some [("/users", "get")]%string; schemas := None |} in
  let run := scenario_check (inr fetched) no_faults (world_of [users_target]) in
  option_map version (findById target_id (apis (snd run)))
  = Some "1.0.0"%string
  /\ option_map latestSpec (findById target_id (apis (snd run)))
     = Some fetched
  /\ map snap_version (snapshots (snd run)) = ["unknown"%string].
Proof. repeat split. Qed.

(** C2, as stated, fails: the fetch for the target times out and the store
    then refuses the handler's update.  The check rejects with the store's
    error and the target is left in [checking] with no recorded error.  And
    where the handler's update is accepted, what the check resolves to is
    what a check that fetched the unchanged document resolves to. *)
Lemma check_fetch_failure_handler_refused :
  let w := world_of [users_target] in
  let run := scenario_check (inl timeout_error) (fault_at 198 write_error) w in
  fst run = inl write_error
  /\ option_map healthStatus (findById target_id (apis (snd run)))
     = Some checking
  /\ option_map lastError (findById target_id (apis (snd run))) = Some None
  /\ fst (scenario_check (inl timeout_error) no_faults w)
     = fst (scenario_check (inr spec_v1) no_faults w).
Proof. repeat split. Qed.

(** C2 (amended), on the scenario: the fetch for the target times out while
    a second target is registered, and the store accepts the handler's
    update. *)
Lemma check_fetch_failure_witness :
  exists w' api',
    scenario_check (inl timeout_error) no_faults
      (world_of [users_target; target_v1 other_id "1h" healthy])
    = (inr no_changes, w')
    /\ findById target_id (apis w') = Some api'
    /\ healthStatus api' = error
    /\ lastError api' = Some "timeout of 10000ms exceeded"%string
    /\ lastChecked api' = Some 1000
    /\ snapshots w' = []
    /\ changelogs w' = []
    /\ findById other_id (apis w') = Some (target_v1 other_id "1h" healthy).
Proof.
  destruct (proj1 (@check_fetch_failure
                     (scenario_env 5000 (inl timeout_error) no_faults)
                     PathDetector unmeasured
                     (world_of [users_target; target_v1 other_id "1h" healthy])
                     target_id users_target timeout_error
                     eq_refl eq_refl eq_refl eq_refl eq_refl)
              eq_refl)
    as (w' & api' & Hrun & _ & Hget & Hh & He & Hc & Hs & Hlog & Hothers).
  exists w', api'. repeat split; try assumption.
  unfold scenario_check in Hrun. injection Hrun as <-. reflexivity.
Defined.

(** C3, as stated, fails: the target is already in [checking], and the check
    still issues the GET, rewrites the target and writes a snapshot. *)
Lemma check_while_checking_not_skipped :
  let w := world_of [target_v1 target_id "1h" checking] in
  let run := scenario_check (inr spec_v1_users) no_faults w in
  option_map healthStatus (findById target_id (apis w)) = Some checking
  /\ requests (snd run) = [users_url]
  /\ option_map healthStatus (findById target_id (apis (snd run)))
     = Some healthy
  /\ option_map changeCount (findById target_id (apis (snd run))) = Some 1
  /\ List.length (snapshots (snd run)) = 1%nat.
Proof. repeat split. Qed.

(** C3 (amended), on that input. *)
Lemma check_while_checking_witness :
  let w := world_of [target_v1 target_id "1h" checking] in
  requests (snd (scenario_check (inr spec_v1_users) no_faults w))
  = [users_url].
Proof.
  exact (proj1 (proj2 (@check_while_checking
                         (scenario_env 5000 (inr spec_v1_users) no_faults)
                         PathDetector unmeasured
                         (world_of [target_v1 target_id "1h" checking])
                         target_id (target_v1 target_id "1h" checking)
                         eq_refl eq_refl eq_refl)
                 eq_refl eq_refl)).
Defined.

(** C5, on two writes of the transition 1.0.0 -> 2.0.0 of one target. *)
Lemma changelog_transition_unique_witness :
  let first := entry_1_to_2 "1 path added" 2000 in
  let second := entry_1_to_2 "1 path added (seen again)" 9000 in
  transition_count target_id "1.0.0" "2.0.0"
    (changelog_run [Create first; Create second]) = 1%nat
  /\ changelog_run [Create first; Create second] = [first].
Proof.
  pose proof (changelog_transition_unique []
                (entry_1_to_2 "1 path added" 2000)
                (entry_1_to_2 "1 path added (seen again)" 9000)
                eq_refl eq_refl eq_refl eq_refl)
    as (_ & _ & _ & Hcount & _ & Hsame).
  split; [exact Hcount|exact Hsame].
Defined.

(** C6, as stated, fails: the store refuses the snapshot write, registration
    resolves all the same, and the registered target has no snapshot. *)
Lemma register_without_snapshot :
  let run := registerApi
               (scenario_env 5000 (inr spec_v1) (fault_at 210 write_error))
               unmeasured users_dto owner_id (world_of []) in
  resolved (fst run) = true
  /\ option_map healthStatus (findById target_id (apis (snd run)))
     = Some healthy
  /\ filter (fun s => (snap_apiId s =? target_id)%string) (snapshots (snd run))
     = []
  /\ logs (snd run) = ["Failed to create snapshot: connection pool closed"%string].
Proof. repeat split. Qed.

(** C6 (amended), on a registration the store accepts in full. *)
Lemma register_api_witness :
  exists dto' api w',
    registerApi (scenario_env 5000 (inr spec_v1) no_faults) unmeasured
      users_dto owner_id (world_of [])
    = (inr dto', w')
    /\ apis w' = [api]
    /\ healthStatus api = healthy
    /\ changeCount api = 0
    /\ requests w' = [users_url]
    /\ List.length (snapshots w') = 1%nat.
Proof.
  destruct (proj2 (register_api (scenario_env 5000 (inr spec_v1) no_faults)
                     unmeasured users_dto owner_id (world_of []))
              spec_v1 "1.0.0"%string eq_refl eq_refl
              ltac:(discriminate) eq_refl)
    as (dto' & api & w' & Hrun & Ha & _ & _ & Hh & Hc & _ & _ & Hr & Hsnap).
  exists dto', api, w'. repeat split; try assumption.
  cbn in Hsnap. destruct Hsnap as (snap & Hs & _). now rewrite Hs.
Defined.

(** C7, as stated, fails: the snapshot write of a check that detected a
    change is refused, and the target ends [healthy] with no recorded error;
    the check reports the change. *)
Lemma check_snapshot_refused_stays_healthy :
  let run := scenario_check (inr spec_v1_users) (fault_at 210 write_error)
               (world_of [users_target]) in
  resolved (fst run) = true
  /\ option_map healthStatus (findById target_id (apis (snd run)))
     = Some healthy
  /\ option_map lastError (findById target_id (apis (snd run))) = Some None
  /\ snapshots (snd run) = [].
Proof. repeat split. Qed.

(** C7 (amended), on a check whose update of line 171 is refused. *)
Lemma check_persistence_failure_witness :
  exists w' api',
    scenario_check (inr spec_v1_users) (fault_at 171 write_error)
      (world_of [users_target])
    = (inr no_changes, w')
    /\ findById target_id (apis w') = Some api'
    /\ healthStatus api' = error
    /\ lastError api' = Some "connection pool closed"%string.
Proof.
  destruct (proj1 (@check_persistence_failure
                     (scenario_env 5000 (inr spec_v1_users)
                        (fault_at 171 write_error))
                     PathDetector unmeasured (world_of [users_target])
                     target_id users_target spec_v1_users
                     {| ChangeDetector.hasChanges := true;
                        ChangeDetector.changes :=
                          [path_change ChangeDetector.added false "/users"] |}
                     eq_refl eq_refl eq_refl eq_refl eq_refl eq_refl)
              write_error true (conj eq_refl eq_refl) eq_refl)
    as (w' & api' & Hrun & Hget & Hh & He & _).
  exists w', api'. repeat split; assumption.
Defined.

(** C8, as stated, fails: the fetched document has no [info] at all, and
    with the path detector the check reports a change, leaves the target
    [healthy] and stores that document as the target's specification.  The
    same holds with any detector that answers on these two documents: the
    check resolves and the target ends [healthy] with no recorded error, and
    if the answer reports changes the document is stored. *)
Lemma check_unversioned_document_stored :
  let run := scenario_check (inr spec_unversioned_users) no_faults
               (world_of [users_target]) in
  spec_version spec_unversioned_users = None
  /\ fst run
     = inr {| CheckResult.hasChanges := true;
              CheckResult.changes :=
                Some [path_change ChangeDetector.added false "/users"];
              CheckResult.newVersion := None |}
  /\ option_map latestSpec (findById target_id (apis (snd run)))
     = Some spec_unversioned_users
  /\ option_map healthStatus (findById target_id (apis (snd run)))
     = Some healthy
  /\ option_map lastError (findById target_id (apis (snd run))) = Some None
  /\ forall (detector : ChangeDetectorService) (r : ChangeDetector.Result),
       @detectChanges detector spec_v1 spec_unversioned_users target_id
       = inr r ->
       let run' :=
         @checkApiForChanges
           (scenario_env 5000 (inr spec_unversioned_users) no_faults)
           detector unmeasured target_id (world_of [users_target]) in
       resolved (fst run') = true
       /\ option_map healthStatus (findById target_id (apis (snd run')))
          = Some healthy
       /\ option_map lastError (findById target_id (apis (snd run')))
          = Some None
       /\ (ChangeDetector.hasChanges r = true ->
           option_map latestSpec (findById target_id (apis (snd run')))
           = Some spec_unversioned_users).
Proof.
  do 5 (split; [reflexivity|]).
  intros detector r Hdetect run'. subst run'.
  destruct (ChangeDetector.hasChanges r) eqn:Hchanges.
  - destruct (@check_run_change
                (scenario_env 5000 (inr spec_unversioned_users) no_faults)
                detector unmeasured (world_of [users_target]) target_id
                users_target spec_unversioned_users r
                eq_refl eq_refl eq_refl eq_refl eq_refl Hdetect Hchanges
                eq_refl eq_refl)
      as (w' & Hrun & Hget & _).
    rewrite Hrun. cbn [fst snd resolved]. rewrite Hget.
    repeat split; reflexivity.
  - destruct (@check_run_no_change
                (scenario_env 5000 (inr spec_unversioned_users) no_faults)
                detector unmeasured (world_of [users_target]) target_id
                users_target spec_unversioned_users r
                eq_refl eq_refl eq_refl eq_refl eq_refl Hdetect Hchanges
                eq_refl eq_refl)
      as (w' & api' & Hrun & Hget & Hh & He & _).
    rewrite Hrun. cbn [fst snd resolved]. rewrite Hget.
    cbn [option_map]. rewrite Hh, He.
    repeat split; try reflexivity. discriminate.
Qed.

(** C8 (amended), on that input with the path detector. *)
Lemma check_missing_version_witness :
  exists w' api' res,
    scenario_check (inr spec_unversioned_users) no_faults
      (world_of [users_target])
    = (inr res, w')
    /\ CheckResult.hasChanges res = true
    /\ findById target_id (apis w') = Some api'
    /\ healthStatus api' = healthy
    /\ version api' = "1.0.0"%string
    /\ latestSpec api' = spec_unversioned_users.
Proof.
  destruct (proj1 (@check_missing_version
                     (scenario_env 5000 (inr spec_unversioned_users) no_faults)
                     PathDetector unmeasured (world_of [users_target])
                     target_id users_target spec_unversioned_users
                     eq_refl eq_refl eq_refl eq_refl eq_refl eq_refl)
              {| ChangeDetector.hasChanges := true;
                 ChangeDetector.changes :=
                   [path_change ChangeDetector.added false "/users"] |}
              eq_refl eq_refl eq_refl eq_refl)
    as (w' & api' & res & Hrun & Hres & Hget & Hh & _ & Hv & Hspec & _).
  exists w', api', res. repeat split; assumption.
Defined.

(** C10, on a user who owns no target: every count over targets is 0, and
    [recentChanges] counts the two entries written for the other user's
    targets within the last seven days. *)
Lemma getApiStats_scope_witness :
  let now := 3000 + 6 * 86400000 in
  getApiStats (scenario_env now (inl timeout_error) no_faults) stranger_id
    two_targets
  = (inr {| ApiStatsDto.totalApis := 0; ApiStatsDto.activeApis := 0;
            ApiStatsDto.healthyApis := 0; ApiStatsDto.unhealthyApis := 0;
            ApiStatsDto.recentChanges := 2; ApiStatsDto.totalChanges := 0 |},
     two_targets).
Proof.
  destruct (getApiStats_scope
              (scenario_env (3000 + 6 * 86400000) (inl timeout_error)
                 no_faults)
              two_targets stranger_id
              (conj eq_refl (conj eq_refl (conj eq_refl
                 (conj eq_refl (conj eq_refl eq_refl))))))
    as (stats & Hrun & _).
  cbv zeta. rewrite Hrun. injection Hrun as <-. reflexivity.
Defined.

(** * Further properties of the service *)

(** ** Who may do what *)

Section OwnerGate.

Variable env : Env.
Variable snapshot_path : PathType.
Variable single_batch : nat -> list ApiSnapshot -> list ApiSnapshot.

(** X1: when the target is missing or the caller is not its owner, each of
    lookup, connection test, toggle, deletion and snapshot listing rejects
    with that one error (not found, or access denied), issues no request and
    leaves every collection as it was. *)
Theorem owner_operations_refuse
    (w : World) (id user : ObjectId) (limit : option Z) (e : JsError) :
  access_refusal w id user = Some e ->
  db_fault env 228 = None ->
  db_fault env 257 = None ->
  db_fault env 318 = None ->
  getApiById env id user w = (inl e, w)
  /\ testApiConnection env id user w = (inl e, w)
  /\ toggleApiStatus env id user w = (inl e, w)
  /\ deleteApi env snapshot_path id user w = (inl e, w)
  /\ getApiSnapshots env single_batch id user limit w = (inl e, w).
Proof.
  unfold access_refusal. intros Hrefusal H228 H257 H318.
  assert (Hget : getApiById env id user w = (inl e, w)).
  { unfold getApiById. run_async. rewrite H228.
    destruct (findById id (apis w)) as [api|];
      [|now injection Hrefusal as <-].
    destruct (userId api =? user)%string; [discriminate|].
    now injection Hrefusal as <-. }
  split; [exact Hget|].
  split; [unfold testApiConnection, bind; now rewrite Hget|].
  split; [|split].
  - unfold toggleApiStatus. run_async. rewrite H318.
    destruct (findById id (apis w)) as [api|];
      [|now injection Hrefusal as <-].
    destruct (userId api =? user)%string; [discriminate|].
    now injection Hrefusal as <-.
  - unfold deleteApi. run_async. rewrite H257.
    destruct (findById id (apis w)) as [api|];
      [|now injection Hrefusal as <-].
    destruct (userId api =? user)%string; [discriminate|].
    now injection Hrefusal as <-.
  - unfold getApiSnapshots, bind. now rewrite Hget.
Qed.

End OwnerGate.

Lemma findById_appended (l : list Api) (a : Api) :
  ~ In (_id a) (map _id l) ->
  findById (_id a) (l ++ [a]) = Some a.
Proof.
  unfold findById. induction l as [|b rest IH]; intros Hfresh.
  - cbn. now rewrite String.eqb_refl.
  - cbn [app find map] in *.
    assert (Hb : (_id b =? _id a)%string = false).
    { apply String.eqb_neq. intros Heq. apply Hfresh. now left. }
    rewrite Hb. apply IH. intros Hin. apply Hfresh. now right.
Qed.

(** X2: what registration answers is what a lookup finds, for a registering
    user whose identifier is in canonical form (24 lower-case hexadecimal
    digits, which line 92 stores as spelled and line 232 compares with the
    caller's string): when the store gave the new target an identifier no
    stored target has, a lookup of the identifier in the answer, by the
    registering user, resolves to the very same answer, and a lookup by
    anyone else is denied. *)
Theorem register_then_lookup
    (env env' : Env) (size : OpenAPISpec -> Z)
    (dto : CreateApiDto.t) (user : ObjectId) (w : World)
    (spec : OpenAPISpec) (v : string) :
  canonical_id user = true ->
  axios_get env (CreateApiDto.openApiUrl dto) = inr spec ->
  spec_version spec = Some v ->
  v <> ""%string ->
  db_fault env 102 = None ->
  ~ In (fresh_id env) (map _id (apis w)) ->
  db_fault env' 228 = None ->
  exists answer w',
    registerApi env size dto user w = (inr answer, w')
    /\ getApiById env' (ApiResponseDto.id answer) user w' = (inr answer, w')
    /\ forall other,
         other <> user ->
         getApiById env' (ApiResponseDto.id answer) other w'
         = (inl (ForbiddenException "Access denied"), w').
Proof.
  intros _ Hfetch Hversion Hne Hsave Hfresh H228.
  destruct (registerApi_try_success env size dto user w spec v Hfetch
              Hversion Hne Hsave) as (w' & Htry & Ha & _).
  exists (toResponseDto (new_Api env dto user spec v)), w'.
  split; [unfold registerApi, try_catch; now rewrite Htry|].
  assert (Hfound : findById (fresh_id env) (apis w')
                   = Some (new_Api env dto user spec v)).
  { rewrite Ha. exact (findById_appended (apis w)
                         (new_Api env dto user spec v) Hfresh). }
  cbn [ApiResponseDto.id toResponseDto _id new_Api]. split.
  - unfold getApiById. run_async. rewrite H228, Hfound.
    cbn [userId new_Api]. now rewrite String.eqb_refl.
  - intros other Hother. unfold getApiById. run_async.
    rewrite H228, Hfound. cbn [userId new_Api].
    assert (Hn : (user =? other)%string = false)
      by (apply String.eqb_neq; congruence).
    now rewrite Hn.
Qed.

(** ** Activating and deactivating *)

Lemma set_isActive_back (b : bool) (a : Api) :
  set_isActive (isActive a) (set_isActive b a) = a.
Proof. destruct a; reflexivity. Qed.

Lemma findById_id (id : ObjectId) (l : list Api) (api : Api) :
  findById id l = Some api -> _id api = id.
Proof.
  unfold findById. intros H. apply find_some in H as [_ H].
  now apply String.eqb_eq.
Qed.

Lemma findById_save (doc : Api) (l : list Api) (id : ObjectId) :
  findById id (save_isActive doc l)
  = if (id =? _id doc)%string
    then option_map (set_isActive (isActive doc)) (findById id l)
    else findById id l.
Proof.
  unfold findById, save_isActive.
  induction l as [|a rest IH]; [now destruct (id =? _id doc)%string|].
  cbn [map find].
  destruct (String.eqb_spec id (_id doc)) as [Heq|Hne].
  - rewrite Heq in *. destruct (_id a =? _id doc)%string eqn:Ha.
    + cbn [_id set_isActive]. rewrite Ha. reflexivity.
    + rewrite Ha. exact IH.
  - destruct (String.eqb_spec (_id a) (_id doc)) as [Ha|Ha].
    + cbn [_id set_isActive].
      assert (Hn : (_id a =? id)%string = false)
        by (apply String.eqb_neq; congruence).
      rewrite Hn. exact IH.
    + destruct (_id a =? id)%string; [reflexivity|exact IH].
Qed.

Lemma others_save (doc : Api) (l : list Api) :
  others (_id doc) (save_isActive doc l) = others (_id doc) l.
Proof.
  unfold others, save_isActive.
  induction l as [|a rest IH]; [reflexivity|].
  cbn [map filter]. destruct (_id a =? _id doc)%string eqn:Ha.
  - cbn [_id set_isActive]. rewrite Ha. exact IH.
  - rewrite Ha. cbn [negb]. now rewrite IH.
Qed.

Section ToggleProperties.

Variable env : Env.

Lemma toggle_run (w : World) (id user : ObjectId) (api : Api) :
  db_fault env 318 = None ->
  findById id (apis w) = Some api ->
  userId api = user ->
  db_fault env 327 = None ->
  toggleApiStatus env id user w
  = (inr (toResponseDto (set_isActive (negb (isActive api)) api)),
     with_apis (save_isActive (set_isActive (negb (isActive api)) api)) w).
Proof.
  intros H318 Hfind Hown H327. unfold toggleApiStatus. run_async.
  rewrite H318, Hfind, Hown, String.eqb_refl, H327. reflexivity.
Qed.

(** X3: a toggle by the owner flips [isActive] of that target and nothing
    else: the target's version, stored specification, health, last check and
    change counter, the other targets, the snapshots and the changelog are
    as before, and no request goes out. *)
Theorem toggleApiStatus_flips_only_isActive
    (w : World) (id user : ObjectId) (api : Api) :
  db_fault env 318 = None ->
  findById id (apis w) = Some api ->
  userId api = user ->
  db_fault env 327 = None ->
  exists dto w' api',
    toggleApiStatus env id user w = (inr dto, w')
    /\ ApiResponseDto.isActive dto = negb (isActive api)
    /\ findById id (apis w') = Some api'
    /\ isActive api' = negb (isActive api)
    /\ version api' = version api
    /\ latestSpec api' = latestSpec api
    /\ healthStatus api' = healthStatus api
    /\ lastChecked api' = lastChecked api
    /\ changeCount api' = changeCount api
    /\ others id (apis w') = others id (apis w)
    /\ snapshots w' = snapshots w
    /\ changelogs w' = changelogs w
    /\ requests w' = requests w.
Proof.
  intros H318 Hfind Hown H327.
  rewrite (toggle_run w id user api H318 Hfind Hown H327).
  pose proof (findById_id _ _ _ Hfind) as Hid.
  eexists _, _, (set_isActive (negb (isActive api)) api).
  split; [reflexivity|]. cbn [apis snapshots changelogs requests with_apis].
  rewrite findById_save. cbn [_id set_isActive isActive].
  rewrite Hid, String.eqb_refl, Hfind.
  repeat split; try reflexivity.
  pose proof (others_save (set_isActive (negb (isActive api)) api) (apis w))
    as Hothers.
  cbn [_id set_isActive] in Hothers. now rewrite Hid in Hothers.
Qed.

End ToggleProperties.

(** X4: two toggles in a row by the owner bring the activation flag back:
    the first answers the flipped flag, the second the original one, and
    after the second the target's flag, version, stored specification,
    health, last check and change counter, the other targets, the snapshots
    and the changelog are as at the start, and no request went out.  (The
    [updatedAt] stamp, which each [save()] rewrites, is not among the fields
    compared.) *)
Theorem toggleApiStatus_twice
    (env1 env2 : Env) (w : World) (id user : ObjectId) (api : Api) :
  findById id (apis w) = Some api ->
  userId api = user ->
  db_fault env1 318 = None -> db_fault env1 327 = None ->
  db_fault env2 318 = None -> db_fault env2 327 = None ->
  exists dto1 dto2 w1 w2 api2,
    toggleApiStatus env1 id user w = (inr dto1, w1)
    /\ toggleApiStatus env2 id user w1 = (inr dto2, w2)
    /\ ApiResponseDto.isActive dto1 = negb (isActive api)
    /\ ApiResponseDto.isActive dto2 = isActive api
    /\ findById id (apis w2) = Some api2
    /\ isActive api2 = isActive api
    /\ version api2 = version api
    /\ latestSpec api2 = latestSpec api
    /\ healthStatus api2 = healthStatus api
    /\ lastChecked api2 = lastChecked api
    /\ changeCount api2 = changeCount api
    /\ others id (apis w2) = others id (apis w)
    /\ snapshots w2 = snapshots w
    /\ changelogs w2 = changelogs w
    /\ requests w2 = requests w.
Proof.
  intros Hfind Hown H1 H1' H2 H2'.
  pose proof (findById_id _ _ _ Hfind) as Hid.
  set (flipped := set_isActive (negb (isActive api)) api).
  assert (Hfind1 : findById id (save_isActive flipped (apis w)) = Some flipped).
  { rewrite findById_save. cbn [_id set_isActive flipped isActive].
    now rewrite Hid, String.eqb_refl, Hfind. }
  assert (Hback : set_isActive (negb (isActive flipped)) flipped = api).
  { unfold flipped. cbn [isActive set_isActive]. rewrite negb_involutive.
    apply set_isActive_back. }
  exists (toResponseDto flipped), (toResponseDto api),
    (with_apis (save_isActive flipped) w),
    (with_apis (save_isActive api) (with_apis (save_isActive flipped) w)),
    api.
  split; [apply (toggle_run env1 w id user api); assumption|].
  split.
  { rewrite (toggle_run env2 (with_apis (save_isActive flipped) w) id user
               flipped H2 Hfind1 Hown H2').
    now rewrite Hback. }
  cbn [apis snapshots changelogs requests with_apis].
  split; [reflexivity|]. split; [reflexivity|]. split.
  { rewrite findById_save, Hid, String.eqb_refl, Hfind1.
    cbn [option_map]. f_equal. apply set_isActive_back. }
  repeat split; try reflexivity.
  pose proof (others_save api (save_isActive flipped (apis w))) as Hsecond.
  pose proof (others_save flipped (apis w)) as Hfirst.
  cbn [_id set_isActive flipped] in Hfirst.
  rewrite Hid in Hsecond, Hfirst. now rewrite Hsecond.
Qed.

(** X5: once the owner has deactivated a target, the due selection no longer
    returns it, whatever its last check and frequency, and a check triggered
    for it does nothing: no request, no write, the result without
    changes. *)
Theorem deactivated_target_is_not_checked
    (env env' : Env) (detector : ChangeDetectorService)
    (size : OpenAPISpec -> Z)
    (w : World) (id user : ObjectId) (api : Api) :
  db_fault env 318 = None ->
  findById id (apis w) = Some api ->
  userId api = user ->
  isActive api = true ->
  db_fault env 327 = None ->
  db_fault env' 44 = None ->
  db_fault env' 132 = None ->
  exists dto w1 due,
    toggleApiStatus env id user w = (inr dto, w1)
    /\ getApisToCheck env' w1 = (inr due, w1)
    /\ (forall a, In a due -> _id a <> id)
    /\ @checkApiForChanges env' detector size id w1 = (inr no_changes, w1).
Proof.
  intros H318 Hfind Hown Hactive H327 H44 H132.
  pose proof (findById_id _ _ _ Hfind) as Hid.
  eexists _, _, _. split; [apply (toggle_run env w id user api); assumption|].
  split; [apply getApisToCheck_run; assumption|]. split.
  - intros a Ha Heq. apply filter_In in Ha as [Ha _].
    apply filter_In in Ha as [Hin Hact].
    cbn [apis with_apis] in Hin. unfold save_isActive in Hin.
    apply in_map_iff in Hin as (a0 & Ha0 & _).
    cbn [_id set_isActive isActive] in Ha0. rewrite Hactive in Ha0.
    destruct (_id a0 =? _id api)%string eqn:Hm.
    + subst a. cbn in Hact. discriminate.
    + subst a0. apply String.eqb_neq in Hm. congruence.
  - apply check_run_skipped; [assumption|].
    cbn [apis with_apis]. rewrite findById_save.
    cbn [_id set_isActive isActive].
    rewrite Hid, String.eqb_refl, Hfind. cbn [option_map isActive set_isActive].
    now rewrite Hactive.
Qed.

(** ** The connection test *)

Section ConnectionProperties.

Variable env : Env.

Lemma test_run_owner (w : World) (id user : ObjectId) (api : Api) :
  db_fault env 228 = None ->
  findById id (apis w) = Some api ->
  userId api = user ->
  getApiById env id user w = (inr (toResponseDto api), w).
Proof.
  intros H228 Hfind Hown. unfold getApiById. run_async.
  now rewrite H228, Hfind, Hown, String.eqb_refl.
Qed.

Lemma test_run_probe (w : World) (id user : ObjectId) (api : Api) :
  db_fault env 228 = None ->
  findById id (apis w) = Some api ->
  userId api = user ->
  testApiConnection env id user w
  = try_catch (testApiConnection_try env id (toResponseDto api))
      (testApiConnection_catch env id (toResponseDto api)) w.
Proof.
  intros H228 Hfind Hown. unfold testApiConnection, bind.
  now rewrite (test_run_owner w id user api H228 Hfind Hown).
Qed.


(** X7: when the GET resolves and the store accepts the update, the test
    resolves with status [healthy] and the measured response time, and the
    target is stored [healthy] with its last error cleared. *)
Theorem testApiConnection_reachable
    (w : World) (id user : ObjectId) (api : Api) :
  db_fault env 228 = None ->
  findById id (apis w) = Some api ->
  userId api = user ->
  connection_error env (openApiUrl api) = None ->
  exists dto w' api',
    testApiConnection env id user w = (inr dto, w')
    /\ ApiHealthDto.status dto = healthy
    /\ ApiHealthDto.error dto = None
    /\ ApiHealthDto.responseTime dto = Some (newDate env 282 - newDate env 277)
    /\ findById id (apis w') = Some api'
    /\ healthStatus api' = healthy
    /\ lastError api' = None.
Proof.
  intros H228 Hfind Hown Hok. unfold connection_error in Hok.
  rewrite (test_run_probe w id user api H228 Hfind Hown).
  unfold testApiConnection_try, testApiConnection_catch. run_async. cbn [ApiResponseDto.openApiUrl toResponseDto].
  destruct (axios_get env (openApiUrl api)) as [e|spec]; [discriminate|].
  rewrite Hok. eexists _, _, _. split; [reflexivity|].
  cbn [apis with_apis]. rewrite findById_update_same, Hfind.
  repeat split; reflexivity.
Qed.

(** X8: when the GET is rejected, or it resolves but the store refuses the
    update that follows, and the store accepts the handler's update, the test
    still resolves, with status [unhealthy]; the target is stored [unhealthy]
    and both the answer and the stored last error carry the rejection's
    message, or ['Connection failed'] when that message is empty. *)
Theorem testApiConnection_unreachable
    (w : World) (id user : ObjectId) (api : Api) (e : JsError) :
  db_fault env 228 = None ->
  findById id (apis w) = Some api ->
  userId api = user ->
  connection_error env (openApiUrl api) = Some e ->
  db_fault env 301 = None ->
  exists dto w' api',
    testApiConnection env id user w = (inr dto, w')
    /\ ApiHealthDto.status dto = unhealthy
    /\ ApiHealthDto.error dto = Some (connection_message e)
    /\ ApiHealthDto.responseTime dto = None
    /\ findById id (apis w') = Some api'
    /\ healthStatus api' = unhealthy
    /\ lastError api' = Some (connection_message e).
Proof.
  intros H228 Hfind Hown Herr H301. unfold connection_error in Herr.
  rewrite (test_run_probe w id user api H228 Hfind Hown).
  unfold testApiConnection_try, testApiConnection_catch. run_async. cbn [ApiResponseDto.openApiUrl toResponseDto].
  destruct (axios_get env (openApiUrl api)) as [e0|spec].
  - injection Herr as ->. rewrite H301. eexists _, _, _.
    split; [reflexivity|]. cbn [apis with_apis].
    rewrite findById_update_same, Hfind. repeat split; reflexivity.
  - rewrite Herr, H301. eexists _, _, _.
    split; [reflexivity|]. cbn [apis with_apis].
    rewrite findById_update_same, Hfind. repeat split; reflexivity.
Qed.

End ConnectionProperties.

(** ** What a scheduled check can and cannot do *)

Section CheckFrame.

Variable env : Env.
Context {changeDetectorService : ChangeDetectorService}.
Variable stringify_length : OpenAPISpec -> Z.

Local Abbreviation check := (checkApiForChanges env stringify_length).

Ltac check_outcomes :=
  repeat match goal with
         | |- context [db_fault env ?n] => destruct (db_fault env n)
         | |- context [axios_get env ?u] => destruct (axios_get env u)
         | |- context [detectChanges ?a ?b ?c] =>
             destruct (detectChanges a b c) as [?|[[] ?]]
         end.

(** X9: whatever the store, the GET and the detector answer, a check of one
    target leaves the documents of all other targets and the whole changelog
    as they were, keeps every stored snapshot and adds at most one, for that
    target, and issues at most one GET. *)
Theorem check_frame (w : World) (id : ObjectId) :
  let w' := snd (check id w) in
  others id (apis w') = others id (apis w)
  /\ changelogs w' = changelogs w
  /\ (snapshots w' = snapshots w
      \/ exists snap,
           snapshots w' = snapshots w ++ [snap] /\ snap_apiId snap = id)
  /\ (requests w' = requests w
      \/ exists url, requests w' = requests w ++ [url]).
Proof.
  intros w'. subst w'. unfold checkApiForChanges, createSnapshot. run_async.
  destruct (db_fault env 132); [cbn; auto|].
  destruct (findById id (apis w)) as [api|]; [|cbn; auto].
  destruct (isActive api); [|cbn; auto]. cbn [negb].
  check_outcomes;
    cbn [fst snd apis snapshots changelogs requests with_apis with_snapshots
         ChangeDetector.hasChanges];
    rewrite ?others_update;
    (repeat split; try reflexivity);
    solve [ now left
          | right; eexists; split; reflexivity
          | right; eexists; reflexivity ].
Qed.

(** X10: a check never lowers a target's change counter and never raises it
    by more than one: after the check the counter is the one read at its
    start, plus one exactly when the check resolved reporting a change; the
    target's identifier, owner, URL, frequency and active flag are never
    touched. *)
Theorem check_changeCount_step (w : World) (id : ObjectId) (api : Api) :
  db_fault env 132 = None ->
  findById id (apis w) = Some api ->
  exists api',
    findById id (apis (snd (check id w))) = Some api'
    /\ changeCount api'
       = changeCount api + (if reported_change (fst (check id w)) then 1 else 0)
    /\ _id api' = _id api
    /\ userId api' = userId api
    /\ openApiUrl api' = openApiUrl api
    /\ checkFrequency api' = checkFrequency api
    /\ isActive api' = isActive api.
Proof.
  intros H132 Hfind. unfold checkApiForChanges, createSnapshot. run_async.
  rewrite H132, Hfind.
  destruct (isActive api) eqn:Hactive; cbn [negb].
  - check_outcomes;
      cbn [fst snd apis with_apis with_snapshots reported_change
           CheckResult.hasChanges ChangeDetector.hasChanges];
      rewrite ?findById_update_same, ?Hfind; cbn [option_map];
      (eexists; split; [reflexivity|]);
      cbn; rewrite ?Hactive; repeat split; lia.
  - exists api. cbn. rewrite Hactive. repeat split; try assumption; lia.
Qed.

(** X11: a check of an active target that resolves never leaves the target in
    [checking] or [unhealthy]: the stored health is [healthy] with the last
    error cleared, or [error] with a recorded message. *)
Theorem check_resolved_health (w : World) (id : ObjectId) (api : Api) :
  db_fault env 132 = None ->
  findById id (apis w) = Some api ->
  isActive api = true ->
  resolved (fst (check id w)) = true ->
  exists api',
    findById id (apis (snd (check id w))) = Some api'
    /\ ((healthStatus api' = healthy /\ lastError api' = None)
        \/ (healthStatus api' = error /\ exists msg, lastError api' = Some msg)).
Proof.
  intros H132 Hfind Hactive.
  unfold checkApiForChanges, createSnapshot. run_async.
  rewrite H132, Hfind, Hactive. cbn [negb].
  check_outcomes;
    cbn [fst snd apis with_apis with_snapshots resolved
         ChangeDetector.hasChanges];
    intros Hresolved; try discriminate Hresolved;
    rewrite ?findById_update_same, ?Hfind; cbn [option_map];
    (eexists; split; [reflexivity|]); cbn;
    solve [ left; split; reflexivity
          | right; split; [reflexivity|eexists; reflexivity] ].
Qed.

(** X12: when the detector rejects after a resolved fetch, the check resolves
    without changes, the target ends in [error] with the detector's message,
    and its stored specification, version, change counter and last check are
    as before; no snapshot is written. *)
Theorem check_detector_rejects
    (w : World) (id : ObjectId) (api : Api) (newSpec : OpenAPISpec)
    (e : JsError) :
  db_fault env 132 = None ->
  findById id (apis w) = Some api ->
  isActive api = true ->
  db_fault env 141 = None ->
  axios_get env (openApiUrl api) = inr newSpec ->
  detectChanges (latestSpec api) newSpec id = inl e ->
  db_fault env 198 = None ->
  exists w' api',
    check id w = (inr no_changes, w')
    /\ findById id (apis w') = Some api'
    /\ healthStatus api' = error
    /\ lastError api' = Some (message e)
    /\ latestSpec api' = latestSpec api
    /\ version api' = version api
    /\ changeCount api' = changeCount api
    /\ lastChecked api' = lastChecked api
    /\ snapshots w' = snapshots w.
Proof.
  intros H132 Hfind Hactive H141 Hfetch Hdetect H198.
  unfold checkApiForChanges. run_async.
  rewrite H132, Hfind, Hactive, H141. cbn [negb apis requests].
  rewrite Hfetch, Hdetect, H198. eexists _, _. split; [reflexivity|].
  cbn [apis snapshots with_apis]. rewrite !findById_update_same, Hfind.
  repeat split; reflexivity.
Qed.

(** X13: when the store refuses the very first status update, the check sends
    no request at all; with the handler's update accepted it resolves
    without changes and the target ends in [error] with the store's
    message. *)
Theorem check_store_down_no_request
    (w : World) (id : ObjectId) (api : Api) (e : JsError) :
  db_fault env 132 = None ->
  findById id (apis w) = Some api ->
  isActive api = true ->
  db_fault env 141 = Some e ->
  db_fault env 198 = None ->
  exists w' api',
    check id w = (inr no_changes, w')
    /\ requests w' = requests w
    /\ snapshots w' = snapshots w
    /\ findById id (apis w') = Some api'
    /\ healthStatus api' = error
    /\ lastError api' = Some (message e)
    /\ lastChecked api' = lastChecked api.
Proof.
  intros H132 Hfind Hactive H141 H198.
  unfold checkApiForChanges. run_async.
  rewrite H132, Hfind, Hactive, H141, H198. cbn [negb].
  eexists _, _. split; [reflexivity|].
  cbn [apis snapshots requests with_apis].
  rewrite !findById_update_same, Hfind. repeat split; reflexivity.
Qed.

End CheckFrame.

(** ** Scheduling over time *)

(** X14: being due is monotone in time: a target that is due at one instant
    is due at every later one, as long as its last check and frequency stay
    the same; a target that was never checked is due at every instant,
    whatever its frequency. *)
Theorem isDue_monotone (now later : Date) (api : Api) :
  now <= later ->
  (isDue now api = true -> isDue later api = true)
  /\ (lastChecked api = None -> isDue now api = true).
Proof.
  intros Hle. unfold isDue. split.
  - destruct (lastChecked api) as [last|]; [|reflexivity].
    destruct (getCheckIntervalMs (checkFrequency api)) as [[m|member]|];
      cbn [js_ge]; try discriminate.
    intros H. apply Z.leb_le in H. apply Z.leb_le. lia.
  - now intros ->.
Qed.

Lemma isDue_same_schedule (now : Date) (a b : Api) :
  lastChecked a = lastChecked b ->
  checkFrequency a = checkFrequency b ->
  isDue now a = isDue now b.
Proof. unfold isDue. now intros -> ->. Qed.

Section SchedulingProperties.

Variable env : Env.
Context {changeDetectorService : ChangeDetectorService}.
Variable stringify_length : OpenAPISpec -> Z.

Local Abbreviation check := (checkApiForChanges env stringify_length).

(** X15: a check that fails on its fetch does not postpone the next one: a
    target that was due when the check started is still due, from the stored
    document, at every later instant. *)
Theorem failed_check_stays_due
    (w : World) (id : ObjectId) (api : Api) (e : JsError) (now later : Date) :
  db_fault env 132 = None ->
  findById id (apis w) = Some api ->
  isActive api = true ->
  db_fault env 141 = None ->
  axios_get env (openApiUrl api) = inl e ->
  db_fault env 198 = None ->
  isDue now api = true ->
  now <= later ->
  exists api',
    findById id (apis (snd (check id w))) = Some api'
    /\ isActive api' = true
    /\ isDue later api' = true.
Proof.
  intros H132 Hfind Hactive H141 Hfetch H198 Hdue Hle.
  destruct (check_run_fetch_rejected env stringify_length w id api e
              H132 Hfind Hactive H141 Hfetch H198)
    as (w' & Hrun & Hget & _).
  rewrite Hrun. cbn [snd]. eexists. split; [exact Hget|].
  split; [exact Hactive|].
  rewrite (isDue_same_schedule later _ api); [|reflexivity|reflexivity].
  now apply (proj1 (isDue_monotone now later api Hle)).
Qed.

(** X16: a check that runs through (fetch and detector answer, the store
    accepts the updates) restarts the target's interval: the stored last
    check is the time the check wrote, and for a frequency that is one of the
    five tokens, or any other string that is not an inherited member name,
    the target is due again exactly when that interval has elapsed since. *)
Theorem completed_check_reschedules
    (w : World) (id : ObjectId) (api : Api) (newSpec : OpenAPISpec)
    (r : ChangeDetector.Result) :
  db_fault env 132 = None ->
  findById id (apis w) = Some api ->
  isActive api = true ->
  db_fault env 141 = None ->
  axios_get env (openApiUrl api) = inr newSpec ->
  detectChanges (latestSpec api) newSpec id = inr r ->
  db_fault env 162 = None ->
  db_fault env (if ChangeDetector.hasChanges r then 171 else 189)%nat = None ->
  existsb (String.eqb (checkFrequency api)) Object_prototype = false ->
  exists api',
    findById id (apis (snd (check id w))) = Some api'
    /\ lastChecked api'
       = Some (newDate env (if ChangeDetector.hasChanges r then 164 else 190)%nat)
    /\ forall later,
         isDue later api' = true
         <-> later - newDate env
                       (if ChangeDetector.hasChanges r then 164 else 190)%nat
             >= spec_intervalMinutes (checkFrequency api) * 60 * 1000.
Proof.
  intros H132 Hfind Hactive H141 Hfetch Hdetect H162 Hnext Hproto.
  unfold checkApiForChanges, createSnapshot. run_async.
  rewrite H132, Hfind, Hactive, H141. cbn [negb apis requests].
  rewrite Hfetch, Hdetect, H162.
  destruct (ChangeDetector.hasChanges r); rewrite Hnext;
    [destruct (db_fault env 210)|];
    cbn [fst snd apis with_apis with_snapshots];
    rewrite !findById_update_same, Hfind; cbn [option_map];
    (eexists; split; [reflexivity|]); (split; [reflexivity|]);
    intros later;
    match goal with
    | |- isDue later ?a = true <-> _ =>
        rewrite (isDue_spec_isDue later a Hproto)
    end;
    unfold spec_isDue; cbn [lastChecked apply_update fold_left set_field
                             checkFrequency];
    rewrite Z.leb_le; lia.
Qed.

End SchedulingProperties.


(** X18: what a failed registration tells the caller.  The rejection is
    always a plain [Error] that carries neither the code nor the response of
    what went wrong.  A document without a usable version is reported with
    the validation text behind the general prefix, because the [catch] block
    wraps the error its own [try] block threw.  A fetch rejected with code
    [ENOTFOUND] or [ECONNREFUSED] is reported as cannot-connect whatever
    response it carries: the code is looked at before the status. *)
Theorem registerApi_rejection_messages
    (env : Env) (size : OpenAPISpec -> Z)
    (dto : CreateApiDto.t) (user : ObjectId) (w : World) :
  (forall e, fst (registerApi env size dto user w) = inl e ->
     name e = "Error"%string /\ code e = None /\ response e = None)
  /\ (forall spec,
        axios_get env (CreateApiDto.openApiUrl dto) = inr spec ->
        truthy (spec_version spec) = false ->
        fst (registerApi env size dto user w)
        = inl (Error
            "Failed to register API: Invalid OpenAPI spec - missing version information"))
  /\ (forall e c,
        axios_get env (CreateApiDto.openApiUrl dto) = inl e ->
        code e = Some c ->
        c = "ENOTFOUND"%string \/ c = "ECONNREFUSED"%string ->
        fst (registerApi env size dto user w)
        = inl (Error
            "Cannot connect to API URL. Please check the URL and try again.")).
Proof.
  split; [|split].
  - intros e. unfold registerApi, try_catch.
    destruct (registerApi_try env size dto user w) as [[e0|dto'] w0];
      [|discriminate].
    unfold registerApi_catch. run_async.
    destruct (match code e0 with
              | Some c => (c =? "ENOTFOUND")%string || (c =? "ECONNREFUSED")%string
              | None => false
              end).
    + intros H. injection H as <-. repeat split.
    + destruct (response e0) as [[status statusText]|].
      * destruct (400 <=? status); intros H; injection H as <-; repeat split.
      * intros H. injection H as <-. repeat split.
  - intros spec Hfetch Hversion.
    unfold registerApi, try_catch, registerApi_try. run_async.
    rewrite Hfetch. unfold truthy in Hversion.
    destruct (spec_version spec) as [v|]; [|reflexivity].
    destruct (v =? "")%string; [reflexivity|discriminate].
  - intros e c Hfetch Hcode Hc.
    unfold registerApi, try_catch, registerApi_try, registerApi_catch.
    run_async. rewrite Hfetch. cbn [fst snd]. rewrite Hcode.
    destruct Hc as [-> | ->]; reflexivity.
Qed.

(** ** Deletion, step by step *)

Section DeleteFrame.

Variable env : Env.
Variable snapshot_path : PathType.

(** X19: the three deletes of [deleteApi] do not wait for one another: each
    one the store accepts takes effect even when another is refused, and the
    call resolves only when all three were accepted.  So a refused snapshot
    delete leaves the snapshots of a target that is already gone, and a
    refused target delete leaves a target whose snapshots are gone (under a
    snapshot schema that casts the filter; under a Mixed one the raw string
    matches no snapshot).  The changelog delete removes no stored entry
    either way. *)
Theorem deleteApi_independent_deletes
    (w : World) (id user : ObjectId) (api : Api) :
  db_fault env 257 = None ->
  findById id (apis w) = Some api ->
  userId api = user ->
  let run := deleteApi env snapshot_path id user w in
  apis (snd run)
  = unless_refused (db_fault env 267) (findByIdAndDelete id (apis w)) (apis w)
  /\ snapshots (snd run)
     = unless_refused (db_fault env 268)
         match snapshot_path with
         | ObjectIdPath =>
             deleteMany (fun s => (id =? snap_apiId s)%string) (snapshots w)
         | MixedPath => snapshots w
         end
         (snapshots w)
  /\ changelogs (snd run) = changelogs w
  /\ (resolved (fst run) = true
      <-> db_fault env 267 = None /\ db_fault env 268 = None
          /\ db_fault env 269 = None).
Proof.
  intros H257 Hfind Hown run. subst run.
  unfold deleteApi, Promise_all. run_async.
  rewrite H257, Hfind, Hown, String.eqb_refl. cbn [negb].
  destruct (db_fault env 267), (db_fault env 268), (db_fault env 269);
    cbn [fst snd resolved unless_refused];
    unfold with_changelogs, with_snapshots, with_apis;
    cbn [apis snapshots changelogs requests logs];
    rewrite ?changelog_delete_matches_nothing;
    (repeat split; try reflexivity; try discriminate;
     try (intros (H1 & H2 & H3); discriminate));
    destruct snapshot_path; try reflexivity;
    exact (deleteMany_nothing (snapshots w)).
Qed.

(** X20: after a deletion the store carried out, the target is gone for
    every later call: a second deletion rejects with not found and changes
    nothing, and a check triggered for the identifier does nothing. *)
Theorem deleted_target_is_gone
    (env' : Env) (detector : ChangeDetectorService)
    (size : OpenAPISpec -> Z)
    (w : World) (id user : ObjectId) (api : Api) :
  NoDup (map _id (apis w)) ->
  db_fault env 257 = None ->
  findById id (apis w) = Some api ->
  userId api = user ->
  db_fault env 267 = None ->
  db_fault env 268 = None ->
  db_fault env 269 = None ->
  db_fault env' 257 = None ->
  db_fault env' 132 = None ->
  exists w',
    deleteApi env snapshot_path id user w = (inr tt, w')
    /\ deleteApi env' snapshot_path id user w'
       = (inl (NotFoundException "API not found"), w')
    /\ @checkApiForChanges env' detector size id w' = (inr no_changes, w').
Proof.
  intros Hnodup H257 Hfind Hown H267 H268 H269 H257' H132'.
  rewrite (deleteApi_accepted env snapshot_path w id user api H257 Hfind Hown
             H267 H268 H269).
  eexists. split; [reflexivity|].
  assert (Hgone : findById id (findByIdAndDelete id (apis w)) = None)
    by now apply findById_delete.
  split.
  - unfold deleteApi. run_async. rewrite H257'. cbn [apis]. now rewrite Hgone.
  - apply check_run_skipped; [assumption|]. cbn [apis]. now rewrite Hgone.
Qed.

End DeleteFrame.

(** ** Statistics add up *)

Lemma count_le {A} (f : A -> bool) (l : list A) :
  (List.length (filter f l) <= List.length l)%nat.
Proof.
  induction l as [|a rest IH]; [reflexivity|].
  cbn [filter]. destruct (f a); cbn [List.length]; lia.
Qed.

Lemma health_partition (l : list Api) :
  (List.length (filter (fun a => HealthStatus_eqb (healthStatus a) healthy) l)
   + List.length
       (filter (fun a => existsb (HealthStatus_eqb (healthStatus a))
                           [unhealthy; error]) l)
   + List.length
       (filter (fun a => HealthStatus_eqb (healthStatus a) checking) l)
   = List.length l)%nat.
Proof.
  induction l as [|a rest IH]; [reflexivity|].
  cbn [filter existsb]. destruct (healthStatus a); cbn in *; lia.
Qed.

(** X21: the statistics of a user are consistent with one another: no count
    is negative, the active targets are at most all targets, and the healthy
    ones, the unhealthy-or-error ones and the ones a check is marked as
    running on add up to all targets of the user. *)
Theorem getApiStats_adds_up (env : Env) (w : World) (user : ObjectId) :
  stats_reads_succeed env ->
  exists stats,
    getApiStats env user w = (inr stats, w)
    /\ 0 <= ApiStatsDto.activeApis stats <= ApiStatsDto.totalApis stats
    /\ 0 <= ApiStatsDto.healthyApis stats
    /\ 0 <= ApiStatsDto.unhealthyApis stats
    /\ 0 <= ApiStatsDto.recentChanges stats
    /\ ApiStatsDto.healthyApis stats + ApiStatsDto.unhealthyApis stats
       + checking_count (owned_by user (apis w))
       = ApiStatsDto.totalApis stats.
Proof.
  intros (H341 & H342 & H343 & H347 & H351 & H361).
  unfold getApiStats. run_async.
  rewrite H341, H342, H343, H347, H351, H361.
  eexists. split; [reflexivity|].
  cbn [ApiStatsDto.totalApis ApiStatsDto.activeApis ApiStatsDto.healthyApis
       ApiStatsDto.unhealthyApis ApiStatsDto.recentChanges].
  unfold countDocuments, checking_count, owned_by. rewrite !filter_andb.
  pose proof (count_le isActive
                (filter (fun a => (userId a =? user)%string) (apis w))).
  pose proof (health_partition
                (filter (fun a => (userId a =? user)%string) (apis w))).
  repeat split; lia.
Qed.

(** ** Listings *)

Lemma insert_desc_perm {A} (key : A -> Z) (x : A) (l : list A) :
  Permutation (insert_desc key x l) (x :: l).
Proof.
  induction l as [|y rest IH]; [reflexivity|].
  cbn [insert_desc]. destruct (key y <=? key x); [reflexivity|].
  rewrite IH. apply perm_swap.
Qed.

Lemma sort_desc_perm {A} (key : A -> Z) (l : list A) :
  Permutation (sort_desc key l) l.
Proof.
  induction l as [|x rest IH]; [reflexivity|].
  cbn [sort_desc fold_right]. fold (sort_desc key rest).
  rewrite insert_desc_perm. now constructor.
Qed.

Lemma insert_desc_sorted {A} (key : A -> Z) (x : A) (l : list A) :
  descending key l -> descending key (insert_desc key x l).
Proof.
  unfold descending. induction l as [|y rest IH]; intros Hsorted.
  - repeat constructor.
  - cbn [insert_desc]. inversion Hsorted as [|y' rest' Hrest Hall]; subst.
    destruct (key y <=? key x) eqn:Hle.
    + apply Z.leb_le in Hle. constructor; [exact Hsorted|].
      constructor; [lia|].
      eapply Forall_impl; [|exact Hall]. cbn. intros b Hb. lia.
    + apply Z.leb_gt in Hle. constructor; [now apply IH|].
      apply (Permutation_Forall (Permutation_sym (insert_desc_perm key x rest))).
      constructor; [lia|exact Hall].
Qed.

Lemma sort_desc_sorted {A} (key : A -> Z) (l : list A) :
  descending key (sort_desc key l).
Proof.
  induction l as [|x rest IH]; [constructor|].
  cbn [sort_desc fold_right]. now apply insert_desc_sorted.
Qed.

Lemma sort_desc_In {A} (key : A -> Z) (l : list A) (a : A) :
  In a (sort_desc key l) <-> In a l.
Proof.
  split; apply Permutation_in;
    [apply sort_desc_perm|apply Permutation_sym, sort_desc_perm].
Qed.

Section ListingProperties.

Variable env : Env.
Variable createdAt : ObjectId -> Date.
Variable single_batch : nat -> list ApiSnapshot -> list ApiSnapshot.

(** X22: the listing of a user's targets returns the response shapes of
    exactly the targets that user owns, each once, newest first by creation
    time, and writes nothing. *)
Theorem getAllApis_own_targets (w : World) (user : ObjectId) :
  db_fault env 34 = None ->
  exists listed,
    getAllApis env createdAt user w = (inr (map toResponseDto listed), w)
    /\ Permutation listed (owned_by user (apis w))
    /\ descending (fun a => createdAt (_id a)) listed
    /\ (forall a, In a listed <-> In a (apis w) /\ userId a = user).
Proof.
  intros H34. unfold getAllApis. run_async. rewrite H34.
  eexists. split; [reflexivity|].
  split; [apply sort_desc_perm|]. split; [apply sort_desc_sorted|].
  intros a. rewrite sort_desc_In.
  unfold owned_by. rewrite filter_In, String.eqb_eq. reflexivity.
Qed.

(** X23: the listing by tag returns, newest first, exactly the caller's own
    targets that carry the tag; every target it returns is also returned by
    the caller's full listing, and none belongs to another user. *)
Theorem getApisByTag_own_tagged (w : World) (tag : string) (user : ObjectId) :
  db_fault env 376 = None ->
  db_fault env 34 = None ->
  exists tagged listed,
    getApisByTag env createdAt tag user w
    = (inr (map toResponseDto tagged), w)
    /\ getAllApis env createdAt user w = (inr (map toResponseDto listed), w)
    /\ descending (fun a => createdAt (_id a)) tagged
    /\ (forall a, In a tagged
                  <-> In a (apis w) /\ userId a = user /\ In tag (tags a))
    /\ incl tagged listed.
Proof.
  intros H376 H34. unfold getApisByTag, getAllApis. run_async.
  rewrite H376, H34. eexists _, _. split; [reflexivity|].
  split; [reflexivity|]. split; [apply sort_desc_sorted|].
  assert (Hin : forall a,
    In a (sort_desc (fun a0 => createdAt (_id a0))
            (filter (fun a0 => (userId a0 =? user)%string
                               && existsb (String.eqb tag) (tags a0))
               (apis w)))
    <-> In a (apis w) /\ userId a = user /\ In tag (tags a)).
  { intros a. rewrite sort_desc_In.
    rewrite filter_In, andb_true_iff, String.eqb_eq, existsb_exists.
    split.
    - intros (Ha & Hu & t & Ht & Heq). apply String.eqb_eq in Heq. now subst t.
    - intros (Ha & Hu & Ht). repeat split; try assumption.
      exists tag. split; [assumption|apply String.eqb_refl]. }
  split; [exact Hin|].
  intros a Ha. apply Hin in Ha as (Ha & Hu & _).
  rewrite sort_desc_In.
  apply filter_In. split; [assumption|]. now apply String.eqb_eq.
Qed.

(** X24: for the owner, the snapshot listing returns the snapshots of that
    target only, without their documents, newest first and cut to the limit:
    it is the first [n] of the target's snapshots in descending detection
    time, where [n] is the given positive limit or 10 when none is given;
    with limit 0 all of them are returned.  It writes nothing. *)
Theorem getApiSnapshots_newest_first
    (w : World) (id user : ObjectId) (api : Api) (limit : option Z) :
  db_fault env 228 = None ->
  findById id (apis w) = Some api ->
  userId api = user ->
  db_fault env 413 = None ->
  match limit with Some n => 0 <= n | None => True end ->
  let n := match limit with Some n => n | None => 10 end in
  exists ordered,
    Permutation ordered
      (filter (fun s => (snap_apiId s =? id)%string) (snapshots w))
    /\ descending detectedAt ordered
    /\ getApiSnapshots env single_batch id user limit w
       = (inr (map without_spec
                 (if n =? 0 then ordered else firstn (Z.to_nat n) ordered)),
          w)
    /\ (forall s, In s ordered -> sum_apiId (without_spec s) = id)
    /\ (0 < n ->
        Z.of_nat (List.length
                    (if n =? 0 then ordered else firstn (Z.to_nat n) ordered))
        <= n).
Proof.
  intros H228 Hfind Hown H413 Hlimit n.
  exists (sort_desc detectedAt
            (filter (fun s => (snap_apiId s =? id)%string) (snapshots w))).
  split; [apply sort_desc_perm|]. split; [apply sort_desc_sorted|].
  split; [|split].
  - unfold getApiSnapshots. unfold bind at 1.
    rewrite (test_run_owner env w id user api H228 Hfind Hown).
    run_async. rewrite H413. unfold cursor_limit. fold n.
    destruct (n =? 0) eqn:Hzero; [reflexivity|].
    assert (Hpos : (0 <? n) = true).
    { apply Z.ltb_lt. apply Z.eqb_neq in Hzero.
      subst n. destruct limit as [m|]; lia. }
    now rewrite Hpos.
  - intros s Hs. apply sort_desc_In in Hs.
    apply filter_In in Hs as [_ Hs]. now apply String.eqb_eq in Hs.
  - intros Hpos. destruct (n =? 0) eqn:Hzero; [apply Z.eqb_eq in Hzero; lia|].
    rewrite length_firstn. lia.
Qed.

End ListingProperties.

(** ** The further properties, on the scenarios *)

(** X1, on a stranger reaching for the scenario target. *)
Lemma owner_operations_refuse_witness :
  let denied := ForbiddenException "Access denied" in
  getApiById quiet_env target_id stranger_id mixed_world
  = (inl denied, mixed_world)
  /\ testApiConnection quiet_env target_id stranger_id mixed_world
     = (inl denied, mixed_world)
  /\ toggleApiStatus quiet_env target_id stranger_id mixed_world
     = (inl denied, mixed_world)
  /\ deleteApi quiet_env MixedPath target_id stranger_id mixed_world
     = (inl denied, mixed_world)
  /\ getApiSnapshots quiet_env first_batch target_id stranger_id None
       mixed_world
     = (inl denied, mixed_world).
Proof.
  exact (owner_operations_refuse quiet_env MixedPath first_batch mixed_world
           target_id
           stranger_id None (ForbiddenException "Access denied")
           eq_refl eq_refl eq_refl eq_refl).
Defined.

Lemma mixed_world_ids : NoDup (map _id (apis mixed_world)).
Proof. repeat constructor; cbn; intuition discriminate. Defined.

(** X3, on the owner deactivating the scenario target. *)
Lemma toggleApiStatus_flips_only_isActive_witness :
  exists dto w',
    toggleApiStatus quiet_env target_id owner_id mixed_world = (inr dto, w')
    /\ ApiResponseDto.isActive dto = false
    /\ snapshots w' = snapshots mixed_world
    /\ others target_id (apis w') = [stranger_target].
Proof.
  destruct (toggleApiStatus_flips_only_isActive quiet_env mixed_world
              target_id owner_id users_target eq_refl eq_refl eq_refl eq_refl)
    as (dto & w' & api' & Hrun & Hdto & _ & _ & _ & _ & _ & _ & _ & Hothers
        & Hsnaps & _).
  exists dto, w'. repeat split; assumption.
Defined.

(** X4, on the scenario target toggled off and on again. *)
Lemma toggleApiStatus_twice_witness :
  exists dto1 dto2 w1 w2,
    toggleApiStatus quiet_env target_id owner_id mixed_world = (inr dto1, w1)
    /\ toggleApiStatus quiet_env target_id owner_id w1 = (inr dto2, w2)
    /\ ApiResponseDto.isActive dto1 = false
    /\ ApiResponseDto.isActive dto2 = true
    /\ option_map isActive (findById target_id (apis w2)) = Some true
    /\ others target_id (apis w2) = [stranger_target]
    /\ snapshots w2 = snapshots mixed_world.
Proof.
  destruct (toggleApiStatus_twice quiet_env quiet_env mixed_world target_id
              owner_id users_target eq_refl eq_refl eq_refl eq_refl eq_refl
              eq_refl)
    as (dto1 & dto2 & w1 & w2 & api2 & Hrun1 & Hrun2 & Hd1 & Hd2 & Hget
        & Hactive & _ & _ & _ & _ & _ & Hothers & Hsnaps & _).
  exists dto1, dto2, w1, w2.
  split; [exact Hrun1|]. split; [exact Hrun2|].
  split; [exact Hd1|]. split; [exact Hd2|].
  split; [rewrite Hget; cbn [option_map]; now rewrite Hactive|].
  split; [exact Hothers|exact Hsnaps].
Defined.

(** X5, on the scenario target, due for a day and then deactivated. *)
Lemma deactivated_target_is_not_checked_witness :
  let later := scenario_env (1000 + 86400000) (inr spec_v1_users) no_faults in
  exists dto w1 due,
    toggleApiStatus quiet_env target_id owner_id mixed_world = (inr dto, w1)
    /\ getApisToCheck later w1 = (inr due, w1)
    /\ (forall a, In a due -> _id a <> target_id)
    /\ @checkApiForChanges later PathDetector unmeasured target_id w1
       = (inr no_changes, w1).
Proof.
  exact (deactivated_target_is_not_checked quiet_env
           (scenario_env (1000 + 86400000) (inr spec_v1_users) no_faults)
           PathDetector unmeasured mixed_world target_id owner_id users_target
           eq_refl eq_refl eq_refl eq_refl eq_refl eq_refl eq_refl).
Defined.


(** X7, on a connection test the API answers. *)
Lemma testApiConnection_reachable_witness :
  exists dto w' api',
    testApiConnection answering_env target_id owner_id mixed_world
    = (inr dto, w')
    /\ ApiHealthDto.status dto = healthy
    /\ findById target_id (apis w') = Some api'
    /\ healthStatus api' = healthy.
Proof.
  destruct (testApiConnection_reachable answering_env mixed_world target_id
              owner_id users_target eq_refl eq_refl eq_refl eq_refl)
    as (dto & w' & api' & Hrun & Hst & _ & _ & Hget & Hh & _).
  exists dto, w', api'. repeat split; assumption.
Defined.

(** X8, on a connection test that times out. *)
Lemma testApiConnection_unreachable_witness :
  exists dto w' api',
    testApiConnection quiet_env target_id owner_id mixed_world = (inr dto, w')
    /\ ApiHealthDto.status dto = unhealthy
    /\ ApiHealthDto.error dto = Some "timeout of 10000ms exceeded"%string
    /\ findById target_id (apis w') = Some api'
    /\ healthStatus api' = unhealthy.
Proof.
  destruct (testApiConnection_unreachable quiet_env mixed_world target_id
              owner_id users_target timeout_error
              eq_refl eq_refl eq_refl eq_refl eq_refl)
    as (dto & w' & api' & Hrun & Hst & He & _ & Hget & Hh & _).
  exists dto, w', api'. repeat split; assumption.
Defined.

(** X10, on the check of the specification's scenario. *)
Lemma check_changeCount_step_witness :
  exists api',
    findById target_id
      (apis (snd (scenario_check (inr spec_v1_users) no_faults
                    (world_of [users_target]))))
    = Some api'
    /\ changeCount api' = 1
    /\ userId api' = owner_id.
Proof.
  destruct (@check_changeCount_step answering_env PathDetector unmeasured
              (world_of [users_target]) target_id users_target
              eq_refl eq_refl)
    as (api' & Hget & Hcount & _ & Hu & _).
  exists api'. repeat split; assumption.
Defined.

(** X11, on a check whose fetch times out. *)
Lemma check_resolved_health_witness :
  exists api',
    findById target_id
      (apis (snd (scenario_check (inl timeout_error) no_faults
                    (world_of [users_target]))))
    = Some api'
    /\ ((healthStatus api' = healthy /\ lastError api' = None)
        \/ (healthStatus api' = error
            /\ exists msg, lastError api' = Some msg)).
Proof.
  exact (@check_resolved_health quiet_env PathDetector unmeasured
           (world_of [users_target]) target_id users_target
           eq_refl eq_refl eq_refl eq_refl).
Defined.

(** X12, on a detector that rejects. *)
Lemma check_detector_rejects_witness :
  exists w' api',
    @checkApiForChanges answering_env RejectingDetector unmeasured target_id
      (world_of [users_target])
    = (inr no_changes, w')
    /\ findById target_id (apis w') = Some api'
    /\ healthStatus api' = error
    /\ lastError api' = Some "Cannot read properties of undefined"%string
    /\ snapshots w' = [].
Proof.
  destruct (@check_detector_rejects answering_env RejectingDetector
              unmeasured (world_of [users_target]) target_id users_target
              spec_v1_users (Error "Cannot read properties of undefined")
              eq_refl eq_refl eq_refl eq_refl eq_refl eq_refl eq_refl)
    as (w' & api' & Hrun & Hget & Hh & He & _ & _ & _ & _ & Hs).
  exists w', api'. repeat split; assumption.
Defined.

(** X13, on a store that refuses the first status update. *)
Lemma check_store_down_no_request_witness :
  exists w' api',
    scenario_check (inr spec_v1_users) (fault_at 141 write_error)
      (world_of [users_target])
    = (inr no_changes, w')
    /\ requests w' = []
    /\ findById target_id (apis w') = Some api'
    /\ healthStatus api' = error.
Proof.
  destruct (@check_store_down_no_request
              (scenario_env 5000 (inr spec_v1_users)
                 (fault_at 141 write_error))
              PathDetector unmeasured (world_of [users_target]) target_id
              users_target write_error eq_refl eq_refl eq_refl eq_refl eq_refl)
    as (w' & api' & Hrun & Hr & _ & Hget & Hh & _).
  exists w', api'. repeat split; assumption.
Defined.

(** X14, on the scenario target one hour and one day after its last
    check. *)
Lemma isDue_monotone_witness :
  isDue (1000 + 3600000) users_target = true
  /\ isDue (1000 + 86400000) users_target = true.
Proof.
  split; [reflexivity|].
  exact (proj1 (isDue_monotone (1000 + 3600000) (1000 + 86400000)
                  users_target ltac:(lia)) eq_refl).
Defined.

(** X15, on a due target whose fetch times out. *)
Lemma failed_check_stays_due_witness :
  let now := 1000 + 3600000 in
  exists api',
    findById target_id
      (apis (snd (@checkApiForChanges
                    (scenario_env now (inl timeout_error) no_faults)
                    PathDetector unmeasured target_id
                    (world_of [users_target]))))
    = Some api'
    /\ isActive api' = true
    /\ isDue (now + 60000) api' = true.
Proof.
  exact (@failed_check_stays_due
           (scenario_env (1000 + 3600000) (inl timeout_error) no_faults)
           PathDetector unmeasured (world_of [users_target]) target_id
           users_target timeout_error (1000 + 3600000)
           (1000 + 3600000 + 60000)
           eq_refl eq_refl eq_refl eq_refl eq_refl eq_refl eq_refl
           ltac:(lia)).
Defined.

(** X16, on the check of the specification's scenario, written at time
    5000. *)
Lemma completed_check_reschedules_witness :
  exists api',
    findById target_id
      (apis (snd (scenario_check (inr spec_v1_users) no_faults
                    (world_of [users_target]))))
    = Some api'
    /\ lastChecked api' = Some 5000
    /\ isDue (5000 + 3599999) api' = false
    /\ isDue (5000 + 3600000) api' = true.
Proof.
  destruct (@completed_check_reschedules answering_env PathDetector
              unmeasured (world_of [users_target]) target_id users_target
              spec_v1_users
              {| ChangeDetector.hasChanges := true;
                 ChangeDetector.changes :=
                   [path_change ChangeDetector.added false "/users"] |}
              eq_refl eq_refl eq_refl eq_refl eq_refl eq_refl eq_refl
              eq_refl eq_refl)
    as (api' & Hget & Hlast & Hdue).
  exists api'. repeat split; try assumption.
  - apply not_true_is_false. intros H. apply Hdue in H. cbn in H. lia.
  - apply Hdue. cbn. lia.
Defined.


(** X19, on a deletion whose target delete the store refuses, under a
    snapshot schema that casts: the call rejects and the target stays, but
    its snapshot is gone. *)
Lemma deleteApi_independent_deletes_witness :
  let run := deleteApi
               (scenario_env 5000 (inl timeout_error)
                  (fault_at 267 write_error))
               ObjectIdPath target_id owner_id mixed_world in
  resolved (fst run) = false
  /\ apis (snd run) = [users_target; stranger_target]
  /\ snapshots (snd run) = [snapshot_of other_id]
  /\ changelogs (snd run) = changelogs mixed_world.
Proof.
  destruct (deleteApi_independent_deletes
              (scenario_env 5000 (inl timeout_error)
                 (fault_at 267 write_error))
              ObjectIdPath mixed_world target_id owner_id users_target
              eq_refl eq_refl eq_refl)
    as (Ha & Hs & Hc & _).
  split; [reflexivity|]. split; [exact Ha|]. split; [exact Hs|exact Hc].
Defined.

(** X20, on the scenario target deleted by its owner. *)
Lemma deleted_target_is_gone_witness :
  exists w',
    deleteApi quiet_env MixedPath target_id owner_id mixed_world = (inr tt, w')
    /\ deleteApi quiet_env MixedPath target_id owner_id w'
       = (inl (NotFoundException "API not found"), w')
    /\ @checkApiForChanges answering_env PathDetector unmeasured target_id w'
       = (inr no_changes, w').
Proof.
  exact (deleted_target_is_gone quiet_env MixedPath answering_env PathDetector
           unmeasured mixed_world target_id owner_id users_target
           mixed_world_ids eq_refl eq_refl eq_refl eq_refl eq_refl eq_refl
           eq_refl eq_refl).
Defined.

(** X21, on the owner of the two targets of [two_targets]. *)
Lemma getApiStats_adds_up_witness :
  exists stats,
    getApiStats quiet_env owner_id two_targets = (inr stats, two_targets)
    /\ ApiStatsDto.totalApis stats = 2
    /\ ApiStatsDto.healthyApis stats + ApiStatsDto.unhealthyApis stats = 2.
Proof.
  destruct (getApiStats_adds_up quiet_env two_targets owner_id
              (conj eq_refl (conj eq_refl (conj eq_refl
                 (conj eq_refl (conj eq_refl eq_refl))))))
    as (stats & Hrun & _ & _ & _ & _ & Hsum).
  exists stats. split; [exact Hrun|].
  injection Hrun as <-. split; reflexivity.
Defined.

(** X22, on the owner's listing over [two_targets]: the newer target comes
    first. *)
Lemma getAllApis_own_targets_witness :
  exists dtos,
    getAllApis quiet_env created_at owner_id two_targets
    = (inr dtos, two_targets)
    /\ map ApiResponseDto.id dtos = [other_id; target_id].
Proof.
  destruct (getAllApis_own_targets quiet_env created_at two_targets owner_id
              eq_refl) as (listed & Hrun & _).
  exists (map toResponseDto listed). split; [exact Hrun|].
  injection Hrun as <-. reflexivity.
Defined.

(** X23, on the stranger's listing by the tag of the one target they own. *)
Lemma getApisByTag_own_tagged_witness :
  exists dtos,
    getApisByTag quiet_env created_at "internal" stranger_id mixed_world
    = (inr dtos, mixed_world)
    /\ map ApiResponseDto.id dtos = [other_id].
Proof.
  destruct (getApisByTag_own_tagged quiet_env created_at mixed_world
              "internal"%string stranger_id eq_refl eq_refl)
    as (tagged & listed & Hrun & _).
  exists (map toResponseDto tagged). split; [exact Hrun|].
  injection Hrun as <-. reflexivity.
Defined.

(** X24, on the two newest of the scenario target's three snapshots. *)
Lemma getApiSnapshots_newest_first_witness :
  exists summaries,
    getApiSnapshots quiet_env first_batch target_id owner_id (Some 2)
      history_world
    = (inr summaries, history_world)
    /\ map sum_detectedAt summaries = [3000; 2000]
    /\ map sum_apiId summaries = [target_id; target_id].
Proof.
  destruct (getApiSnapshots_newest_first quiet_env first_batch history_world
              target_id owner_id users_target (Some 2)
              eq_refl eq_refl eq_refl eq_refl ltac:(cbn; lia))
    as (ordered & _ & _ & Hrun & _).
  eexists. split; [exact Hrun|].
  apply (f_equal fst) in Hrun. symmetry in Hrun. split.
  - exact (f_equal (fun r => match r with
                             | inr l => map sum_detectedAt l
                             | inl _ => []
                             end) Hrun).
  - exact (f_equal (fun r => match r with
                             | inr l => map sum_apiId l
                             | inl _ => []
                             end) Hrun).
Defined.

(** X2, on a registration into an empty store. *)
Lemma register_then_lookup_witness :
  exists answer w',
    registerApi (scenario_env 5000 (inr spec_v1) no_faults) unmeasured
      users_dto owner_id (world_of [])
    = (inr answer, w')
    /\ getApiById quiet_env target_id owner_id w' = (inr answer, w')
    /\ getApiById quiet_env target_id stranger_id w'
       = (inl (ForbiddenException "Access denied"), w').
Proof.
  destruct (register_then_lookup
              (scenario_env 5000 (inr spec_v1) no_faults) quiet_env
              unmeasured users_dto owner_id (world_of []) spec_v1
              "1.0.0"%string eq_refl eq_refl eq_refl ltac:(discriminate)
              eq_refl ltac:(cbn; tauto) eq_refl)
    as (answer & w' & Hrun & Hown & Hother).
  exists answer, w'. split; [exact Hrun|].
  assert (Hid : ApiResponseDto.id answer = target_id).
  { unfold registerApi in Hrun. injection Hrun as <- _. reflexivity. }
  rewrite Hid in Hown, Hother. split; [exact Hown|].
  apply Hother. discriminate.
Defined.
